(** * ManagedIdentityCredential: environment-driven delegate selection

    A shallow embedding of
    [azure/identity/_credentials/managed_identity.py] (module [Sync]) and
    [azure/identity/aio/_credentials/managed_identity.py] (module [Aio]).

    [os.environ] and [**kwargs] are finite maps keyed by strings.  The
    constructor is a pure function of the two that either returns the new
    object or raises; what the constructors of the delegate classes, which
    are not among the sources, make of their arguments is a parameter.
    The methods forward to the held delegate, which is
    an external collaborator: a method is a small program whose only
    effects are calls on the delegate, run against any implementation of
    those calls.  Logging is not modelled: [_LOGGER.info] has no other
    effect, and the [log_get_token] decorators, which are not among the
    sources, are taken to log and hand the outcome of the method through. *)

From Stdlib Require Import String Ascii List ZArith Bool.
From stdpp Require Import base option gmap strings list fin_maps.

Local Open Scope string_scope.

(** ** Python values and exceptions *)

(** The values that travel through [**kwargs].  [PyObject] stands for any
    other object (a transport, a policy): such objects are truthy. *)
Inductive PyVal : Type :=
| PyNone
| PyBool (b : bool)
| PyInt (n : Z)
| PyStr (s : string)
| PyMapping (m : gmap string string)
| PyObject (oid : positive).

(** Python truth value testing. *)
Definition truthy (v : PyVal) : bool :=
  match v with
  | PyNone => false
  | PyBool b => b
  | PyInt n => negb (n =? 0)%Z
  | PyStr s => negb (String.eqb s "")
  | PyMapping m => negb (bool_decide (m = ∅))
  | PyObject _ => true
  end.

(** [a or b] *)
Definition py_or (a b : PyVal) : PyVal := if truthy a then a else b.

(** [all(...)] over an already evaluated sequence. *)
Definition py_all (vs : list PyVal) : bool := forallb truthy vs.

Inductive Exn : Type :=
| CredentialUnavailableError (message : string)
| ValueError (message : string)
| KeyError (key : string)
| TypeError
| OtherError (cls message : string).

Inductive Result (A : Type) : Type :=
| Ok (a : A)
| Raise (e : Exn).
Arguments Ok {A} a.
Arguments Raise {A} e.

Definition bind {A B : Type} (m : Result A) (k : A -> Result B) : Result B :=
  match m with
  | Ok a => k a
  | Raise e => Raise e
  end.

Declare Scope py_scope.
Delimit Scope py_scope with py.
Notation "x <- m ;; k" := (bind m (fun x => k))
  (at level 100, m at next level, right associativity) : py_scope.
Local Open Scope py_scope.

(** ** The process environment and keyword arguments *)

(** [os.environ.get(name)] *)
Definition os_environ_get (environ : gmap string string) (name : string) : PyVal :=
  match environ !! name with
  | Some v => PyStr v
  | None => PyNone
  end.

(** [os.environ[name]] *)
Definition os_environ_getitem (environ : gmap string string) (name : string)
  : Result string :=
  match environ !! name with
  | Some v => Ok v
  | None => Raise (KeyError name)
  end.

(** [kwargs.pop(key, default)]: the value and the dictionary left behind. *)
Definition kwargs_pop (kwargs : gmap string PyVal) (key : string) (default : PyVal)
  : PyVal * gmap string PyVal :=
  (match kwargs !! key with Some v => v | None => default end, delete key kwargs).

(** A variable is present when it is bound to a non-empty string. *)
Definition present (environ : gmap string string) (name : string) : Prop :=
  exists v, environ !! name = Some v /\ v <> "".

(** The snapshot with every empty-string binding removed. *)
Definition drop_empty (environ : gmap string string) : gmap string string :=
  filter (fun kv => kv.2 <> "") environ.

(** ** Constants

    [azure/identity/_constants.py] is not among the sources: the names are
    a parameter of the development. *)
Module EnvironmentVariables.

Class Names : Type := {
  IDENTITY_ENDPOINT : string;
  IDENTITY_HEADER : string;
  IDENTITY_SERVER_THUMBPRINT : string;
  IMDS_ENDPOINT : string;
  MSI_ENDPOINT : string;
  MSI_SECRET : string;
  AZURE_CLIENT_ID : string;
  AZURE_TENANT_ID : string;
  AZURE_FEDERATED_TOKEN_FILE : string;
  WORKLOAD_IDENTITY_VARS : list string
}.

End EnvironmentVariables.

(** Modelled from the spec: the values of [EnvironmentVariables], whose
    defining module is missing.  Section 6 spells nine names out; the
    authority-host variable it only alludes to and the contents of
    [WORKLOAD_IDENTITY_VARS] follow the testable properties, under which
    the workload-identity branch needs the tenant ID and the token file
    but not the client ID. *)
Definition azure_names : EnvironmentVariables.Names := {|
  EnvironmentVariables.IDENTITY_ENDPOINT := "IDENTITY_ENDPOINT";
  EnvironmentVariables.IDENTITY_HEADER := "IDENTITY_HEADER";
  EnvironmentVariables.IDENTITY_SERVER_THUMBPRINT := "IDENTITY_SERVER_THUMBPRINT";
  EnvironmentVariables.IMDS_ENDPOINT := "IMDS_ENDPOINT";
  EnvironmentVariables.MSI_ENDPOINT := "MSI_ENDPOINT";
  EnvironmentVariables.MSI_SECRET := "MSI_SECRET";
  EnvironmentVariables.AZURE_CLIENT_ID := "AZURE_CLIENT_ID";
  EnvironmentVariables.AZURE_TENANT_ID := "AZURE_TENANT_ID";
  EnvironmentVariables.AZURE_FEDERATED_TOKEN_FILE := "AZURE_FEDERATED_TOKEN_FILE";
  EnvironmentVariables.WORKLOAD_IDENTITY_VARS :=
    ["AZURE_AUTHORITY_HOST"; "AZURE_TENANT_ID"; "AZURE_FEDERATED_TOKEN_FILE"]
|}.

(** ** Delegates *)

(** The delegate classes, one per hosting platform. *)
Inductive CredentialSourceKind : Type :=
| ServiceFabric
| AppService
| AzureArc
| AzureML
| CloudShell
| WorkloadIdentity
| Imds.

(** A delegate object is known by its class and the keyword arguments it
    was constructed with; the classes themselves are outside the sources.
    An instance is an ordinary object, hence truthy. *)
Record Provider : Type := {
  provider_class : CredentialSourceKind;
  init_kwargs : gmap string PyVal
}.

(** The package a delegate class is imported from: [azure.identity] or
    [azure.identity.aio]. *)
Inductive Convention : Type :=
| Synchronous
| Asynchronous.

(** The delegate classes are not among the sources, so what their
    constructors do is a parameter: [init_raises conv cls args] is the
    exception the constructor of class [cls] of package [conv] raises on
    the keyword arguments [args], and [None] when it returns. *)
Class DelegateClasses : Type := {
  init_raises : Convention -> CredentialSourceKind -> gmap string PyVal -> option Exn
}.

(** The body of a delegate's constructor on its bound arguments. *)
Definition construct `{DelegateClasses} (conv : Convention)
    (cls : CredentialSourceKind) (args : gmap string PyVal) : Result Provider :=
  match init_raises conv cls args with
  | Some e => Raise e
  | None => Ok {| provider_class := cls; init_kwargs := args |}
  end.

(** [Cls(name=value, ..., **kwargs)].  Python refuses the call when
    [kwargs] repeats a keyword that is also passed by name; otherwise the
    constructor runs on all of them. *)
Definition instantiate `{DelegateClasses} (conv : Convention)
    (cls : CredentialSourceKind) (named : list (string * PyVal))
    (kwargs : gmap string PyVal) : Result Provider :=
  if forallb (fun kv => bool_decide (kwargs !! kv.1 = None)) named
  then construct conv cls (list_to_map named ∪ kwargs)
  else Raise TypeError.

(** Sample delegate classes: in either package every class refuses the
    option [base_headers] with a TypeError and takes any other. *)
Definition sample_classes : DelegateClasses := {|
  init_raises := fun _ _ args =>
    if bool_decide (args !! "base_headers" = None) then None else Some TypeError
|}.

(** ** Calls on the delegate *)

Record AccessToken : Type := {
  token : string;
  expires_on : Z
}.

(** The methods the facade invokes on its delegate, indexed by the type
    of what they return. *)
Inductive ProviderCall : Type -> Type :=
| provider_get_token (p : Provider) (scopes : list string)
    (claims tenant_id : option string) (kwargs : gmap string PyVal)
  : ProviderCall AccessToken
| provider_enter (p : Provider) : ProviderCall unit
| provider_exit (p : Provider) (args : list PyVal) : ProviderCall unit
| provider_close (p : Provider) : ProviderCall unit.

(** A method body: it returns, raises, or calls the delegate and goes on
    with the answer.  An [await] on the delegate is such a call too. *)
Inductive Prog (A : Type) : Type :=
| Return (a : A)
| Throw (e : Exn)
| Invoke {X : Type} (c : ProviderCall X) (k : X -> Prog A).
Arguments Return {A} a.
Arguments Throw {A} e.
Arguments Invoke {A X} c k.

(** An implementation of the delegates over some state of the world. *)
Definition Delegates (W : Type) : Type :=
  forall X : Type, ProviderCall X -> W -> Result X * W.

(** Running a method body: an exception raised by the delegate ends the
    method with that exception, as no body below catches any. *)
Fixpoint run {W A : Type} (h : Delegates W) (m : Prog A) (w : W) : Result A * W :=
  match m with
  | Return a => (Ok a, w)
  | Throw e => (Raise e, w)
  | Invoke c k =>
      match h _ c w with
      | (Ok x, w') => run h (k x) w'
      | (Raise e, w') => (Raise e, w')
      end
  end.

(** ** Strings of the diagnostics *)

Definition newline : string := String (ascii_of_nat 10) EmptyString.
Definition dquote : string := String (ascii_of_nat 34) EmptyString.

Fixpoint contains (needle hay : string) : bool :=
  String.prefix needle hay ||
  match hay with
  | EmptyString => false
  | String _ rest => contains needle rest
  end.

(** What the diagnostic of a facade without delegate has to say: the
    platform could not be determined from the environment, and where to
    look for help. *)
Definition actionable (message : string) : bool :=
  contains "platform could not be determined from environment variables" message
  && contains "https://aka.ms/azsdk/python/identity/managedidentitycredential/troubleshoot"
       message.

Definition missing_client_id_message : string :=
  "Configure the environment with a client ID or pass a value for "
  +:+ dquote +:+ "client_id" +:+ dquote +:+ " argument".

(** ** The synchronous credential *)
Module Sync.

Record ManagedIdentityCredential : Type := {
  _credential : option Provider
}.

Section Constructor.
Context {names : EnvironmentVariables.Names} {classes : DelegateClasses}.
Import EnvironmentVariables.

(** The delegate classes this package imports. *)
Definition ServiceFabricCredential := instantiate Synchronous ServiceFabric [].
Definition AppServiceCredential := instantiate Synchronous AppService [].
Definition AzureArcCredential := instantiate Synchronous AzureArc [].
Definition AzureMLCredential := instantiate Synchronous AzureML [].
Definition CloudShellCredential := instantiate Synchronous CloudShell [].
Definition ImdsCredential := instantiate Synchronous Imds [].
Definition WorkloadIdentityCredential (tenant_id : string) (client_id : PyVal)
    (file : string) (kwargs : gmap string PyVal) : Result Provider :=
  instantiate Synchronous WorkloadIdentity
    [("tenant_id", PyStr tenant_id); ("client_id", client_id); ("file", PyStr file)]
    kwargs.

(** The credential around a newly constructed delegate, or the exception
    its construction raised. *)
Definition holding (built : Result Provider) : Result ManagedIdentityCredential :=
  c <- built ;; Ok {| _credential := Some c |}.

Definition __init__ (environ : gmap string string) (kwargs : gmap string PyVal)
  : Result ManagedIdentityCredential :=
  let self := {| _credential := None |} in
  let '(exclude_workload_identity, kwargs) :=
    kwargs_pop kwargs "_exclude_workload_identity_credential" (PyBool false) in
  if truthy (os_environ_get environ IDENTITY_ENDPOINT) then
    if truthy (os_environ_get environ IDENTITY_HEADER) then
      if truthy (os_environ_get environ IDENTITY_SERVER_THUMBPRINT) then
        c <- ServiceFabricCredential kwargs ;;
        Ok {| _credential := Some c |}
      else
        c <- AppServiceCredential kwargs ;;
        Ok {| _credential := Some c |}
    else if truthy (os_environ_get environ IMDS_ENDPOINT) then
      c <- AzureArcCredential kwargs ;;
      Ok {| _credential := Some c |}
    else Ok self
  else if truthy (os_environ_get environ MSI_ENDPOINT) then
    if truthy (os_environ_get environ MSI_SECRET) then
      c <- AzureMLCredential kwargs ;;
      Ok {| _credential := Some c |}
    else
      c <- CloudShellCredential kwargs ;;
      Ok {| _credential := Some c |}
  else if py_all (map (os_environ_get environ) WORKLOAD_IDENTITY_VARS)
          && negb (truthy exclude_workload_identity) then
    let '(popped, kwargs) := kwargs_pop kwargs "client_id" PyNone in
    let client_id := py_or popped (os_environ_get environ AZURE_CLIENT_ID) in
    if negb (truthy client_id) then
      Raise (ValueError missing_client_id_message)
    else
      tenant_id <- os_environ_getitem environ AZURE_TENANT_ID ;;
      file <- os_environ_getitem environ AZURE_FEDERATED_TOKEN_FILE ;;
      c <- WorkloadIdentityCredential tenant_id client_id file kwargs ;;
      Ok {| _credential := Some c |}
  else
    c <- ImdsCredential kwargs ;;
    Ok {| _credential := Some c |}.

(** The guards of [__init__] on their own: the class of the branch
    they lead to, [None] where no branch assigns a delegate. *)
Definition resolve (environ : gmap string string) (exclude_workload_identity : bool)
  : option CredentialSourceKind :=
  if truthy (os_environ_get environ IDENTITY_ENDPOINT) then
    if truthy (os_environ_get environ IDENTITY_HEADER) then
      if truthy (os_environ_get environ IDENTITY_SERVER_THUMBPRINT) then
        Some ServiceFabric
      else Some AppService
    else if truthy (os_environ_get environ IMDS_ENDPOINT) then Some AzureArc
    else None
  else if truthy (os_environ_get environ MSI_ENDPOINT) then
    if truthy (os_environ_get environ MSI_SECRET) then Some AzureML
    else Some CloudShell
  else if py_all (map (os_environ_get environ) WORKLOAD_IDENTITY_VARS)
          && negb exclude_workload_identity then
    Some WorkloadIdentity
  else Some Imds.

End Constructor.

Definition __enter__ (self : ManagedIdentityCredential) : Prog ManagedIdentityCredential :=
  match _credential self with
  | Some c => Invoke (provider_enter c) (fun _ => Return self)
  | None => Return self
  end.

Definition __exit__ (self : ManagedIdentityCredential) (args : list PyVal) : Prog unit :=
  match _credential self with
  | Some c => Invoke (provider_exit c args) (fun _ => Return tt)
  | None => Return tt
  end.

Definition close (self : ManagedIdentityCredential) : Prog unit :=
  __exit__ self [].

Definition unavailable_message : string :=
  "No managed identity endpoint found. " +:+ newline
  +:+ "The Target Azure platform could not be determined from environment variables. "
  +:+ newline
  +:+ "Visit https://aka.ms/azsdk/python/identity/managedidentitycredential/troubleshoot to "
  +:+ "troubleshoot this issue.".

Definition get_token (self : ManagedIdentityCredential) (scopes : list string)
    (claims tenant_id : option string) (kwargs : gmap string PyVal) : Prog AccessToken :=
  match _credential self with
  | None => Throw (CredentialUnavailableError unavailable_message)
  | Some c => Invoke (provider_get_token c scopes claims tenant_id kwargs) Return
  end.

End Sync.

(** ** The asynchronous credential *)
Module Aio.

Record ManagedIdentityCredential : Type := {
  _credential : option Provider
}.

Section Constructor.
Context {names : EnvironmentVariables.Names} {classes : DelegateClasses}.
Import EnvironmentVariables.

(** The delegate classes this package imports. *)
Definition ServiceFabricCredential := instantiate Asynchronous ServiceFabric [].
Definition AppServiceCredential := instantiate Asynchronous AppService [].
Definition AzureArcCredential := instantiate Asynchronous AzureArc [].
Definition AzureMLCredential := instantiate Asynchronous AzureML [].
Definition CloudShellCredential := instantiate Asynchronous CloudShell [].
Definition ImdsCredential := instantiate Asynchronous Imds [].
Definition WorkloadIdentityCredential (tenant_id : string) (client_id : PyVal)
    (file : string) (kwargs : gmap string PyVal) : Result Provider :=
  instantiate Asynchronous WorkloadIdentity
    [("tenant_id", PyStr tenant_id); ("client_id", client_id); ("file", PyStr file)]
    kwargs.

(** The credential around a newly constructed delegate, or the exception
    its construction raised. *)
Definition holding (built : Result Provider) : Result ManagedIdentityCredential :=
  c <- built ;; Ok {| _credential := Some c |}.

Definition __init__ (environ : gmap string string) (kwargs : gmap string PyVal)
  : Result ManagedIdentityCredential :=
  let '(exclude_workload_identity, kwargs) :=
    kwargs_pop kwargs "_exclude_workload_identity_credential" (PyBool false) in
  if truthy (os_environ_get environ IDENTITY_ENDPOINT) then
    if truthy (os_environ_get environ IDENTITY_HEADER) then
      if truthy (os_environ_get environ IDENTITY_SERVER_THUMBPRINT) then
        c <- ServiceFabricCredential kwargs ;;
        Ok {| _credential := Some c |}
      else
        c <- AppServiceCredential kwargs ;;
        Ok {| _credential := Some c |}
    else if truthy (os_environ_get environ IMDS_ENDPOINT) then
      c <- AzureArcCredential kwargs ;;
      Ok {| _credential := Some c |}
    else
      c <- CloudShellCredential kwargs ;;
      Ok {| _credential := Some c |}
  else if truthy (os_environ_get environ MSI_ENDPOINT) then
    if truthy (os_environ_get environ MSI_SECRET) then
      c <- AzureMLCredential kwargs ;;
      Ok {| _credential := Some c |}
    else
      c <- CloudShellCredential kwargs ;;
      Ok {| _credential := Some c |}
  else if py_all (map (os_environ_get environ) WORKLOAD_IDENTITY_VARS)
          && negb (truthy exclude_workload_identity) then
    let '(popped, kwargs) := kwargs_pop kwargs "client_id" PyNone in
    let client_id := py_or popped (os_environ_get environ AZURE_CLIENT_ID) in
    if negb (truthy client_id) then
      Raise (ValueError missing_client_id_message)
    else
      tenant_id <- os_environ_getitem environ AZURE_TENANT_ID ;;
      file <- os_environ_getitem environ AZURE_FEDERATED_TOKEN_FILE ;;
      c <- WorkloadIdentityCredential tenant_id client_id file kwargs ;;
      Ok {| _credential := Some c |}
  else
    c <- ImdsCredential kwargs ;;
    Ok {| _credential := Some c |}.

(** The guards of [__init__] on their own, as in [Sync.resolve]. *)
Definition resolve (environ : gmap string string) (exclude_workload_identity : bool)
  : option CredentialSourceKind :=
  if truthy (os_environ_get environ IDENTITY_ENDPOINT) then
    if truthy (os_environ_get environ IDENTITY_HEADER) then
      if truthy (os_environ_get environ IDENTITY_SERVER_THUMBPRINT) then
        Some ServiceFabric
      else Some AppService
    else if truthy (os_environ_get environ IMDS_ENDPOINT) then Some AzureArc
    else Some CloudShell
  else if truthy (os_environ_get environ MSI_ENDPOINT) then
    if truthy (os_environ_get environ MSI_SECRET) then Some AzureML
    else Some CloudShell
  else if py_all (map (os_environ_get environ) WORKLOAD_IDENTITY_VARS)
          && negb exclude_workload_identity then
    Some WorkloadIdentity
  else Some Imds.

End Constructor.

Definition __aenter__ (self : ManagedIdentityCredential) : Prog ManagedIdentityCredential :=
  match _credential self with
  | Some c => Invoke (provider_enter c) (fun _ => Return self)
  | None => Return self
  end.

Definition close (self : ManagedIdentityCredential) : Prog unit :=
  match _credential self with
  | Some c => Invoke (provider_close c) (fun _ => Return tt)
  | None => Return tt
  end.

Definition unavailable_message : string :=
  "No managed identity endpoint found. " +:+ newline
  +:+ "The Target Azure platform could not be determined from environment variables. "
  +:+ "Visit https://aka.ms/azsdk/python/identity/managedidentitycredential/troubleshoot to "
  +:+ "troubleshoot this issue.".

Definition get_token (self : ManagedIdentityCredential) (scopes : list string)
    (claims tenant_id : option string) (kwargs : gmap string PyVal) : Prog AccessToken :=
  match _credential self with
  | None => Throw (CredentialUnavailableError unavailable_message)
  | Some c => Invoke (provider_get_token c scopes claims tenant_id kwargs) Return
  end.

End Aio.

(** ** Observations on the constructors and on [get_token] *)

(** The flag a caller passes under [_exclude_workload_identity_credential],
    [False] when it passes none. *)
Definition exclude_flag (kwargs : gmap string PyVal) : bool :=
  truthy (kwargs_pop kwargs "_exclude_workload_identity_credential" (PyBool false)).1.

(** The keyword arguments left for the delegate once the flag is popped. *)
Definition delegate_kwargs (kwargs : gmap string PyVal) : gmap string PyVal :=
  (kwargs_pop kwargs "_exclude_workload_identity_credential" (PyBool false)).2.

(** The class of the delegate a constructed credential holds. *)
Definition held_class (held : option Provider) : option CredentialSourceKind :=
  provider_class <$> held.

(** The contract of [get_token] for a credential type [F] whose delegate is
    read by [held]: the method raises by itself exactly when no delegate is
    held, with the diagnostic [message]; otherwise its body is the one call
    of the delegate's [get_token] on the very same arguments, whose result,
    token or exception, is the result of the method whatever the delegate
    does. *)
Definition get_token_contract {F : Type} (held : F -> option Provider)
    (get_token : F -> list string -> option string -> option string ->
                 gmap string PyVal -> Prog AccessToken)
    (message : string) : Prop :=
  forall (self : F) (scopes : list string) (claims tenant_id : option string)
         (kwargs : gmap string PyVal),
    ((exists m, get_token self scopes claims tenant_id kwargs
                = Throw (CredentialUnavailableError m)) <-> held self = None)
    /\ (held self = None ->
        get_token self scopes claims tenant_id kwargs
        = Throw (CredentialUnavailableError message))
    /\ (forall c, held self = Some c ->
        get_token self scopes claims tenant_id kwargs
        = Invoke (provider_get_token c scopes claims tenant_id kwargs) Return
        /\ forall (W : Type) (h : Delegates W) (w : W),
            run h (get_token self scopes claims tenant_id kwargs) w
            = h AccessToken (provider_get_token c scopes claims tenant_id kwargs) w).

(** ** Sample delegates, to run the methods on *)

(** The world of the samples: the delegates closed so far. *)
Definition sample_delegates : Delegates (list Provider) :=
  fun X c =>
    match c in ProviderCall X return list Provider -> Result X * list Provider with
    | provider_get_token p scopes _ _ _ => fun w =>
        if bool_decide (w = [])
        then (Ok {| token := String.concat " " scopes; expires_on := 3600 |}, w)
        else (Raise (OtherError "ClientAuthenticationError" "session is closed"), w)
    | provider_enter p => fun w => (Ok tt, w)
    | provider_exit p _ => fun w => (Ok tt, [p])
    | provider_close p => fun w => (Ok tt, [p])
    end.

(** The delegate answers a call without raising, whatever the world. *)
Definition never_fails {W : Type} (h : Delegates W) (c : ProviderCall unit) : Prop :=
  forall w : W, (h unit c w).1 = Ok tt.

(** Repeating the call right after itself succeeds and changes nothing. *)
Definition idempotent {W : Type} (h : Delegates W) (c : ProviderCall unit) : Prop :=
  forall w : W, h unit c (h unit c w).2 = (Ok tt, (h unit c w).2).

(** ** Sample environments, under the names of [azure_names] *)

Definition bare_endpoint_environ : gmap string string :=
  list_to_map [("IDENTITY_ENDPOINT", "http://x")].

Definition app_service_environ : gmap string string :=
  list_to_map [("IDENTITY_ENDPOINT", "http://x"); ("IDENTITY_HEADER", "secret");
               ("MSI_ENDPOINT", "http://legacy")].

Definition service_fabric_environ : gmap string string :=
  list_to_map [("IDENTITY_ENDPOINT", "http://x"); ("IDENTITY_HEADER", "secret");
               ("IDENTITY_SERVER_THUMBPRINT", "0a1b2c")].

Definition azure_ml_environ : gmap string string :=
  list_to_map [("MSI_ENDPOINT", "http://legacy"); ("MSI_SECRET", "secret")].

Definition cloud_shell_environ : gmap string string :=
  list_to_map [("MSI_ENDPOINT", "http://legacy"); ("MSI_SECRET", "")].

Definition workload_environ : gmap string string :=
  list_to_map [("AZURE_AUTHORITY_HOST", "https://login.microsoftonline.com");
               ("AZURE_TENANT_ID", "tenant"); ("AZURE_CLIENT_ID", "client");
               ("AZURE_FEDERATED_TOKEN_FILE", "/var/run/secrets/token")].

Definition workload_environ_without_client : gmap string string :=
  list_to_map [("AZURE_AUTHORITY_HOST", "https://login.microsoftonline.com");
               ("AZURE_TENANT_ID", "tenant");
               ("AZURE_FEDERATED_TOKEN_FILE", "/var/run/secrets/token")].

Definition excluding_workload_identity : gmap string PyVal :=
  list_to_map [("_exclude_workload_identity_credential", PyBool true)].

Definition management_scope : string := "https://management.azure.com/.default".

(** ** What a delegate is handed *)

(** The options the caller gave are the ones the delegate [c] was built
    with: the exclusion flag is withheld, a WorkloadIdentityCredential has
    [tenant_id], [client_id] and [file] set by the constructor, and every
    other keyword is bound for the delegate as it was for the caller. *)
Definition forwards_options (kwargs : gmap string PyVal) (c : Provider) : Prop :=
  init_kwargs c !! "_exclude_workload_identity_credential" = None
  /\ (provider_class c <> WorkloadIdentity ->
      init_kwargs c = delete "_exclude_workload_identity_credential" kwargs)
  /\ (forall key : string,
        key <> "_exclude_workload_identity_credential" ->
        key <> "tenant_id" -> key <> "client_id" -> key <> "file" ->
        init_kwargs c !! key = kwargs !! key).

(** An identity endpoint with neither header nor IMDS endpoint. *)
Definition bare_endpoint `{names : EnvironmentVariables.Names}
    (environ : gmap string string) : Prop :=
  present environ EnvironmentVariables.IDENTITY_ENDPOINT
  /\ ~ present environ EnvironmentVariables.IDENTITY_HEADER
  /\ ~ present environ EnvironmentVariables.IMDS_ENDPOINT.

(** The guard of the workload-identity branch, reached when neither
    endpoint variable is present. *)
Definition workload_identity_selected `{names : EnvironmentVariables.Names}
    (environ : gmap string string) (kwargs : gmap string PyVal) : Prop :=
  ~ present environ EnvironmentVariables.IDENTITY_ENDPOINT
  /\ ~ present environ EnvironmentVariables.MSI_ENDPOINT
  /\ (forall var, In var EnvironmentVariables.WORKLOAD_IDENTITY_VARS ->
                  present environ var)
  /\ exclude_flag kwargs = false.

(** Neither the [client_id] option nor AZURE_CLIENT_ID gives a client ID. *)
Definition no_client_id `{names : EnvironmentVariables.Names}
    (environ : gmap string string) (kwargs : gmap string PyVal) : Prop :=
  (forall v, kwargs !! "client_id" = Some v -> truthy v = false)
  /\ ~ present environ EnvironmentVariables.AZURE_CLIENT_ID.

(** The exception [e] comes out of the constructor of the delegate class
    [selected] by the guards, called by the credential of package [conv]. *)
Definition raised_by_delegate `{classes : DelegateClasses} (conv : Convention)
    (selected : option CredentialSourceKind) (e : Exn) : Prop :=
  exists cls args, selected = Some cls /\ init_raises conv cls args = Some e.

(** The exception [e] is one the workload-identity branch raises by itself,
    before the delegate's constructor runs, with what brings it about. *)
Definition raised_by_workload_branch `{names : EnvironmentVariables.Names}
    (environ : gmap string string) (kwargs : gmap string PyVal) (e : Exn) : Prop :=
  (e = ValueError missing_client_id_message /\ no_client_id environ kwargs)
  \/ (~ no_client_id environ kwargs
      /\ ((e = KeyError EnvironmentVariables.AZURE_TENANT_ID
           /\ environ !! EnvironmentVariables.AZURE_TENANT_ID = None)
          \/ (e = KeyError EnvironmentVariables.AZURE_FEDERATED_TOKEN_FILE
              /\ environ !! EnvironmentVariables.AZURE_FEDERATED_TOKEN_FILE = None)
          \/ (e = TypeError
              /\ (is_Some (kwargs !! "tenant_id") \/ is_Some (kwargs !! "file"))))).

(** Options the sample classes refuse. *)
Definition with_base_headers : gmap string PyVal :=
  list_to_map [("base_headers", PyStr "x")].

(** ** More sample environments and options *)

(** The variables of [app_service_environ], bound to other values. *)
Definition app_service_environ_elsewhere : gmap string string :=
  list_to_map [("IDENTITY_ENDPOINT", "http://127.0.0.1:41741/msi/token");
               ("IDENTITY_HEADER", "0"); ("MSI_ENDPOINT", "0")].

Definition azure_arc_environ : gmap string string :=
  list_to_map [("IDENTITY_ENDPOINT", "http://localhost:40342/metadata/identity");
               ("IMDS_ENDPOINT", "http://localhost:40342");
               ("MSI_ENDPOINT", "http://legacy"); ("MSI_SECRET", "secret")].


Definition ml_and_workload_environ : gmap string string :=
  list_to_map [("MSI_ENDPOINT", "http://legacy"); ("MSI_SECRET", "secret");
               ("AZURE_AUTHORITY_HOST", "https://login.microsoftonline.com");
               ("AZURE_TENANT_ID", "tenant");
               ("AZURE_FEDERATED_TOKEN_FILE", "/var/run/secrets/token")].

Definition with_client_id : gmap string PyVal :=
  list_to_map [("client_id", PyStr "override");
               ("identity_config", PyMapping (list_to_map [("object_id", "42")]))].

Definition with_tenant_id : gmap string PyVal :=
  list_to_map [("client_id", PyStr "override"); ("tenant_id", PyStr "other")].

(** ** Presence of a variable and truthiness of its lookup *)

Lemma truthy_PyStr (s : string) : truthy (PyStr s) = true <-> s <> "".
Proof.
  simpl. rewrite negb_true_iff. split.
  - intros Hne ->. discriminate.
  - intros Hne. apply String.eqb_neq. exact Hne.
Qed.

Lemma truthy_get_present (environ : gmap string string) (name : string) :
  truthy (os_environ_get environ name) = true <-> present environ name.
Proof.
  unfold os_environ_get, present. destruct (environ !! name) as [v|].
  - rewrite truthy_PyStr. split.
    + intros Hne. exists v. split; [reflexivity | exact Hne].
    + intros (v' & Heq & Hne). congruence.
  - simpl. split; [discriminate | intros (v' & Heq & _); discriminate].
Qed.

Lemma truthy_get_absent (environ : gmap string string) (name : string) :
  truthy (os_environ_get environ name) = false <-> ~ present environ name.
Proof.
  rewrite <- truthy_get_present. destruct (truthy _); split; congruence.
Qed.

Lemma all_present_forall (environ : gmap string string) (vars : list string) :
  py_all (map (os_environ_get environ) vars) = true
  <-> forall var, In var vars -> present environ var.
Proof.
  unfold py_all. rewrite forallb_forall. split.
  - intros Hall var Hin. apply truthy_get_present, Hall, in_map, Hin.
  - intros Hall v Hin. apply in_map_iff in Hin as (var & <- & Hin).
    apply truthy_get_present, Hall, Hin.
Qed.

Lemma lookup_drop_empty (environ : gmap string string) (name : string) :
  drop_empty environ !! name
  = match environ !! name with
    | Some v => if String.eqb v "" then None else Some v
    | None => None
    end.
Proof.
  unfold drop_empty. destruct (environ !! name) as [v|] eqn:Hv.
  - destruct (String.eqb_spec v "") as [->|Hne].
    + apply map_lookup_filter_None. right. intros x Hx. simpl. congruence.
    + apply map_lookup_filter_Some. split; [exact Hv | exact Hne].
  - apply map_lookup_filter_None. left. exact Hv.
Qed.

Lemma truthy_get_drop_empty (environ : gmap string string) (name : string) :
  truthy (os_environ_get (drop_empty environ) name)
  = truthy (os_environ_get environ name).
Proof.
  unfold os_environ_get. rewrite lookup_drop_empty.
  destruct (environ !! name) as [v|]; [|reflexivity].
  destruct (String.eqb_spec v "") as [->|Hne]; [reflexivity|].
  simpl. apply String.eqb_neq in Hne. rewrite Hne. reflexivity.
Qed.

Lemma all_drop_empty (environ : gmap string string) (vars : list string) :
  py_all (map (os_environ_get (drop_empty environ)) vars)
  = py_all (map (os_environ_get environ) vars).
Proof.
  unfold py_all. induction vars as [|var vars IH]; [reflexivity|].
  cbn [map forallb]. rewrite truthy_get_drop_empty, IH. reflexivity.
Qed.

Lemma getitem_drop_empty (environ : gmap string string) (name : string) :
  present environ name ->
  os_environ_getitem (drop_empty environ) name = os_environ_getitem environ name.
Proof.
  intros (v & Hv & Hne). unfold os_environ_getitem.
  rewrite lookup_drop_empty, Hv. apply String.eqb_neq in Hne. rewrite Hne.
  reflexivity.
Qed.

Lemma getitem_present (environ : gmap string string) (name : string) :
  present environ name ->
  exists v, os_environ_getitem environ name = Ok v /\ environ !! name = Some v.
Proof.
  intros (v & Hv & _). exists v. unfold os_environ_getitem. rewrite Hv. auto.
Qed.

(** ** Construction of the delegates *)

Lemma construct_inv `{DelegateClasses} (conv : Convention) (cls : CredentialSourceKind)
    (args : gmap string PyVal) (c : Provider) :
  construct conv cls args = Ok c <->
  init_raises conv cls args = None /\ c = Build_Provider cls args.
Proof.
  unfold construct. destruct (init_raises conv cls args); split.
  - discriminate.
  - intros [Hnone _]. discriminate Hnone.
  - intros [= <-]. split; reflexivity.
  - intros [_ ->]. reflexivity.
Qed.

Lemma construct_raise_inv `{DelegateClasses} (conv : Convention)
    (cls : CredentialSourceKind) (args : gmap string PyVal) (e : Exn) :
  construct conv cls args = Raise e <-> init_raises conv cls args = Some e.
Proof.
  unfold construct. destruct (init_raises conv cls args); split; congruence.
Qed.

Lemma instantiate_kwargs_only `{DelegateClasses} (conv : Convention)
    (cls : CredentialSourceKind) (kwargs : gmap string PyVal) :
  instantiate conv cls [] kwargs = construct conv cls kwargs.
Proof.
  unfold instantiate. cbn [forallb list_to_map foldr].
  rewrite (left_id_L ∅ (∪)). reflexivity.
Qed.

Lemma instantiate_class `{DelegateClasses} (conv : Convention)
    (cls : CredentialSourceKind) (named : list (string * PyVal))
    (kwargs : gmap string PyVal) (c : Provider) :
  instantiate conv cls named kwargs = Ok c -> provider_class c = cls.
Proof.
  unfold instantiate. destruct (forallb _ _); [|discriminate].
  intros (_ & ->)%construct_inv. reflexivity.
Qed.

Lemma run_invoke_return {W X : Type} (h : Delegates W) (c : ProviderCall X) (w : W) :
  run h (Invoke c Return) w = h X c w.
Proof.
  cbn [run]. destruct (h X c w) as [[x|e] w']; reflexivity.
Qed.

(** ** The constructors and their guards *)

Ltac open_init :=
  unfold Sync.__init__, Aio.__init__, Sync.resolve, Aio.resolve,
    Sync.holding, Aio.holding, exclude_flag, delegate_kwargs, kwargs_pop;
  cbv beta iota zeta; cbn [fst snd];
  unfold Sync.ServiceFabricCredential, Sync.AppServiceCredential,
    Sync.AzureArcCredential, Sync.AzureMLCredential, Sync.CloudShellCredential,
    Sync.ImdsCredential, Aio.ServiceFabricCredential, Aio.AppServiceCredential,
    Aio.AzureArcCredential, Aio.AzureMLCredential, Aio.CloudShellCredential,
    Aio.ImdsCredential;
  rewrite ?instantiate_kwargs_only.

Ltac split_guards :=
  repeat match goal with
         | |- context [if ?b then _ else _] => destruct b eqn:?
         end.

Ltac split_construct :=
  unfold construct;
  repeat match goal with
         | |- context [init_raises ?conv ?cls ?args] =>
             destruct (init_raises conv cls args) eqn:?
         end;
  cbn [bind].

Section Properties.
Context {names : EnvironmentVariables.Names} {classes : DelegateClasses}.
Import EnvironmentVariables.

Implicit Types (environ : gmap string string) (kwargs : gmap string PyVal).

(** When the synchronous constructor returns, the delegate it holds is of
    the class the guards lead to. *)
Lemma sync_init_resolve environ kwargs :
  match Sync.__init__ environ kwargs with
  | Ok self =>
      held_class (Sync._credential self) = Sync.resolve environ (exclude_flag kwargs)
  | Raise _ => True
  end.
Proof.
  open_init.
  destruct (truthy (os_environ_get environ IDENTITY_ENDPOINT)).
  { split_guards; split_construct; reflexivity. }
  destruct (truthy (os_environ_get environ MSI_ENDPOINT)).
  { split_guards; split_construct; reflexivity. }
  destruct (_ && _); [|split_construct; reflexivity].
  destruct (negb _); [exact I|].
  destruct (os_environ_getitem environ AZURE_TENANT_ID); [|exact I].
  destruct (os_environ_getitem environ AZURE_FEDERATED_TOKEN_FILE); [|exact I].
  cbn [bind].
  destruct (Sync.WorkloadIdentityCredential _ _ _ _) as [c|e] eqn:Hc; [|exact I].
  cbn [bind Sync._credential held_class fmap option_fmap option_map].
  f_equal. eapply instantiate_class, Hc.
Qed.

Lemma aio_init_resolve environ kwargs :
  match Aio.__init__ environ kwargs with
  | Ok self =>
      held_class (Aio._credential self) = Aio.resolve environ (exclude_flag kwargs)
  | Raise _ => True
  end.
Proof.
  open_init.
  destruct (truthy (os_environ_get environ IDENTITY_ENDPOINT)).
  { split_guards; split_construct; reflexivity. }
  destruct (truthy (os_environ_get environ MSI_ENDPOINT)).
  { split_guards; split_construct; reflexivity. }
  destruct (_ && _); [|split_construct; reflexivity].
  destruct (negb _); [exact I|].
  destruct (os_environ_getitem environ AZURE_TENANT_ID); [|exact I].
  destruct (os_environ_getitem environ AZURE_FEDERATED_TOKEN_FILE); [|exact I].
  cbn [bind].
  destruct (Aio.WorkloadIdentityCredential _ _ _ _) as [c|e] eqn:Hc; [|exact I].
  cbn [bind Aio._credential held_class fmap option_fmap option_map].
  f_equal. eapply instantiate_class, Hc.
Qed.

(** ** Selection by the identity endpoint *)

(** C3.  When IDENTITY_ENDPOINT and IDENTITY_HEADER are both present, the
    delegate is a ServiceFabricCredential if IDENTITY_SERVER_THUMBPRINT is
    present too and an AppServiceCredential if it is not, in both variants
    and whatever else the environment or the options hold; the delegate
    is constructed from the options left once the exclusion flag is popped,
    and the credential holds it unless that constructor raises, in which
    case the credential's constructor raises the same exception. *)
Theorem identity_header_selects_fabric_or_app_service
    environ kwargs (exclude : bool) :
  present environ IDENTITY_ENDPOINT ->
  present environ IDENTITY_HEADER ->
  (present environ IDENTITY_SERVER_THUMBPRINT ->
     Sync.resolve environ exclude = Some ServiceFabric
     /\ Aio.resolve environ exclude = Some ServiceFabric
     /\ Sync.__init__ environ kwargs
        = Sync.holding (construct Synchronous ServiceFabric (delegate_kwargs kwargs))
     /\ Aio.__init__ environ kwargs
        = Aio.holding (construct Asynchronous ServiceFabric (delegate_kwargs kwargs)))
  /\ (~ present environ IDENTITY_SERVER_THUMBPRINT ->
     Sync.resolve environ exclude = Some AppService
     /\ Aio.resolve environ exclude = Some AppService
     /\ Sync.__init__ environ kwargs
        = Sync.holding (construct Synchronous AppService (delegate_kwargs kwargs))
     /\ Aio.__init__ environ kwargs
        = Aio.holding (construct Asynchronous AppService (delegate_kwargs kwargs))).
Proof.
  intros Hendpoint%truthy_get_present Hheader%truthy_get_present.
  split.
  - intros Hthumb%truthy_get_present.
    open_init. rewrite Hendpoint, Hheader, Hthumb. repeat split; reflexivity.
  - intros Hthumb%truthy_get_absent.
    open_init. rewrite Hendpoint, Hheader, Hthumb. repeat split; reflexivity.
Qed.

(** ** Selection by the legacy MSI endpoint *)

(** C5.  When IDENTITY_ENDPOINT is absent and MSI_ENDPOINT is present, the
    delegate is an AzureMLCredential if MSI_SECRET is present and a
    CloudShellCredential if it is not, in both variants.  The credential
    holds the delegate unless the delegate's constructor raises. *)
Theorem msi_endpoint_selects_ml_or_cloud_shell
    environ kwargs (exclude : bool) :
  ~ present environ IDENTITY_ENDPOINT ->
  present environ MSI_ENDPOINT ->
  (present environ MSI_SECRET ->
     Sync.resolve environ exclude = Some AzureML
     /\ Aio.resolve environ exclude = Some AzureML
     /\ Sync.__init__ environ kwargs
        = Sync.holding (construct Synchronous AzureML (delegate_kwargs kwargs))
     /\ Aio.__init__ environ kwargs
        = Aio.holding (construct Asynchronous AzureML (delegate_kwargs kwargs)))
  /\ (~ present environ MSI_SECRET ->
     Sync.resolve environ exclude = Some CloudShell
     /\ Aio.resolve environ exclude = Some CloudShell
     /\ Sync.__init__ environ kwargs
        = Sync.holding (construct Synchronous CloudShell (delegate_kwargs kwargs))
     /\ Aio.__init__ environ kwargs
        = Aio.holding (construct Asynchronous CloudShell (delegate_kwargs kwargs))).
Proof.
  intros Hendpoint%truthy_get_absent Hmsi%truthy_get_present.
  split.
  - intros Hsecret%truthy_get_present.
    open_init. rewrite Hendpoint, Hmsi, Hsecret. repeat split; reflexivity.
  - intros Hsecret%truthy_get_absent.
    open_init. rewrite Hendpoint, Hmsi, Hsecret. repeat split; reflexivity.
Qed.

(** ** The workload-identity branch *)

Lemma client_id_after_flag kwargs :
  delete "_exclude_workload_identity_credential" kwargs !! "client_id"
  = kwargs !! "client_id".
Proof. apply lookup_delete_ne. discriminate. Qed.

Lemma workload_guard environ (exclude : bool) :
  (forall var, In var WORKLOAD_IDENTITY_VARS -> present environ var) ->
  py_all (map (os_environ_get environ) WORKLOAD_IDENTITY_VARS) && negb exclude
  = negb exclude.
Proof. intros Hall%all_present_forall. rewrite Hall. reflexivity. Qed.

Lemma workload_guard_missing environ (exclude : bool) (var : string) :
  In var WORKLOAD_IDENTITY_VARS -> ~ present environ var ->
  py_all (map (os_environ_get environ) WORKLOAD_IDENTITY_VARS) && negb exclude
  = false.
Proof.
  intros Hin Habsent.
  destruct (py_all _) eqn:Hall; [|reflexivity].
  rewrite all_present_forall in Hall. destruct Habsent. apply Hall, Hin.
Qed.

(** C4.  When the workload-identity branch is the one selected (no
    identity endpoint, no MSI endpoint, every variable of
    WORKLOAD_IDENTITY_VARS present, flag not set) and neither the
    [client_id] option nor AZURE_CLIENT_ID gives a client ID, the
    constructor itself raises ValueError, in both variants: no credential
    object exists on which [get_token] could be called. *)
Theorem workload_identity_needs_client_id environ kwargs :
  ~ present environ IDENTITY_ENDPOINT ->
  ~ present environ MSI_ENDPOINT ->
  (forall var, In var WORKLOAD_IDENTITY_VARS -> present environ var) ->
  exclude_flag kwargs = false ->
  (forall v, kwargs !! "client_id" = Some v -> truthy v = false) ->
  ~ present environ AZURE_CLIENT_ID ->
  Sync.resolve environ (exclude_flag kwargs) = Some WorkloadIdentity
  /\ Aio.resolve environ (exclude_flag kwargs) = Some WorkloadIdentity
  /\ Sync.__init__ environ kwargs = Raise (ValueError missing_client_id_message)
  /\ Aio.__init__ environ kwargs = Raise (ValueError missing_client_id_message).
Proof.
  intros Hendpoint%truthy_get_absent Hmsi%truthy_get_absent Hall Hflag Hoption
    Hclient%truthy_get_absent.
  assert (Hguard := workload_guard environ (exclude_flag kwargs) Hall).
  rewrite Hflag in *. revert Hflag Hguard. open_init. intros Hflag Hguard.
  rewrite Hendpoint, Hmsi, Hflag, Hguard, client_id_after_flag.
  assert (Hnone : truthy (py_or match kwargs !! "client_id" with
                                | Some v => v
                                | None => PyNone
                                end (os_environ_get environ AZURE_CLIENT_ID)) = false).
  { unfold py_or. destruct (kwargs !! "client_id") as [v|] eqn:Hv.
    - rewrite (Hoption v eq_refl). exact Hclient.
    - exact Hclient. }
  rewrite Hnone. repeat split; reflexivity.
Qed.

(** C6.  When every variable of WORKLOAD_IDENTITY_VARS is present and
    neither the identity endpoint nor the MSI endpoint is: without the
    exclusion flag the branch taken is the WorkloadIdentityCredential one,
    and the delegate is constructed from AZURE_TENANT_ID, the client ID and
    AZURE_FEDERATED_TOKEN_FILE once these are there too; with the flag the
    same environment falls through to the next branch, which is
    ImdsCredential.  Both variants behave so; the credential holds the
    delegate unless the delegate's own constructor raises. *)
Theorem workload_identity_unless_excluded environ kwargs :
  ~ present environ IDENTITY_ENDPOINT ->
  ~ present environ MSI_ENDPOINT ->
  (forall var, In var WORKLOAD_IDENTITY_VARS -> present environ var) ->
  (Sync.resolve environ false = Some WorkloadIdentity
   /\ Aio.resolve environ false = Some WorkloadIdentity
   /\ Sync.resolve environ true = Some Imds
   /\ Aio.resolve environ true = Some Imds)
  /\ (exclude_flag kwargs = true ->
      Sync.__init__ environ kwargs
      = Sync.holding (construct Synchronous Imds (delegate_kwargs kwargs))
      /\ Aio.__init__ environ kwargs
         = Aio.holding (construct Asynchronous Imds (delegate_kwargs kwargs)))
  /\ (exclude_flag kwargs = false ->
      forall tenant client file : string,
        environ !! AZURE_TENANT_ID = Some tenant ->
        environ !! AZURE_CLIENT_ID = Some client -> client <> "" ->
        environ !! AZURE_FEDERATED_TOKEN_FILE = Some file ->
        kwargs !! "tenant_id" = None -> kwargs !! "file" = None ->
        let client_id :=
          py_or (default PyNone (kwargs !! "client_id")) (PyStr client) in
        let args :=
          list_to_map [("tenant_id", PyStr tenant); ("client_id", client_id);
                       ("file", PyStr file)]
          ∪ delete "client_id" (delegate_kwargs kwargs) in
        Sync.__init__ environ kwargs
        = Sync.holding (construct Synchronous WorkloadIdentity args)
        /\ Aio.__init__ environ kwargs
           = Aio.holding (construct Asynchronous WorkloadIdentity args)).
Proof.
  intros Hendpoint%truthy_get_absent Hmsi%truthy_get_absent Hall.
  assert (Hguard := fun exclude => workload_guard environ exclude Hall).
  repeat apply conj.
  1-4: unfold Sync.resolve, Aio.resolve; rewrite Hendpoint, Hmsi, Hguard;
    reflexivity.
  - intros Hflag. specialize (Hguard (exclude_flag kwargs)).
    rewrite Hflag in Hguard. revert Hflag Hguard. open_init. intros Hflag Hguard.
    rewrite Hendpoint, Hmsi, Hflag, Hguard. split; reflexivity.
  - intros Hflag tenant client file Htenant Hclient Hnonempty Hfile Hkw_tenant
      Hkw_file client_id args.
    assert (Htruthy : truthy client_id = true).
    { subst client_id. unfold py_or.
      destruct (truthy (default PyNone (kwargs !! "client_id"))) eqn:Hoption;
        [exact Hoption | apply truthy_PyStr, Hnonempty]. }
    specialize (Hguard (exclude_flag kwargs)). rewrite Hflag in Hguard.
    subst args. revert Hflag Hguard. open_init. intros Hflag Hguard.
    rewrite Hendpoint, Hmsi, Hflag, Hguard, client_id_after_flag.
    unfold os_environ_getitem. rewrite Htenant, Hfile.
    replace (py_or _ (os_environ_get environ AZURE_CLIENT_ID)) with client_id
      by (unfold os_environ_get; rewrite Hclient;
          subst client_id; destruct (kwargs !! "client_id"); reflexivity).
    rewrite Htruthy. cbn [negb bind].
    unfold Sync.WorkloadIdentityCredential, Aio.WorkloadIdentityCredential,
      instantiate.
    cbn [forallb fst].
    rewrite lookup_delete_eq.
    rewrite !(lookup_delete_ne _ _ "tenant_id") by discriminate.
    rewrite !(lookup_delete_ne _ _ "file") by discriminate.
    rewrite Hkw_tenant, Hkw_file.
    rewrite !bool_decide_eq_true_2 by reflexivity.
    split; reflexivity.
Qed.

(** ** The fallback *)

Lemma get_empty (name : string) : os_environ_get ∅ name = PyNone.
Proof. unfold os_environ_get. rewrite lookup_empty. reflexivity. Qed.

Lemma not_present_empty (name : string) : ~ present ∅ name.
Proof. intros (v & Hv & _). rewrite lookup_empty in Hv. discriminate. Qed.

Lemma imds_when_nothing_matches environ kwargs :
  truthy (os_environ_get environ IDENTITY_ENDPOINT) = false ->
  truthy (os_environ_get environ MSI_ENDPOINT) = false ->
  py_all (map (os_environ_get environ) WORKLOAD_IDENTITY_VARS)
    && negb (exclude_flag kwargs) = false ->
  Sync.resolve environ (exclude_flag kwargs) = Some Imds
  /\ Aio.resolve environ (exclude_flag kwargs) = Some Imds
  /\ Sync.__init__ environ kwargs
     = Sync.holding (construct Synchronous Imds (delegate_kwargs kwargs))
  /\ Aio.__init__ environ kwargs
     = Aio.holding (construct Asynchronous Imds (delegate_kwargs kwargs)).
Proof.
  intros Hendpoint Hmsi. open_init. intros Hguard.
  rewrite Hendpoint, Hmsi, Hguard. repeat split; reflexivity.
Qed.

(** C7.  In the empty environment the delegate is an ImdsCredential, so
    the credential holds a delegate; more generally ImdsCredential is what
    is built whenever the identity endpoint and the MSI endpoint are absent
    and the workload-identity branch is not taken, because the flag
    excludes it or one of its variables is missing.  The credential holds
    the ImdsCredential unless the constructor of that class raises.
    WORKLOAD_IDENTITY_VARS is taken to name at least one variable. *)
Theorem imds_is_the_fallback environ kwargs :
  (WORKLOAD_IDENTITY_VARS <> [] ->
     Sync.resolve ∅ (exclude_flag kwargs) = Some Imds
     /\ Aio.resolve ∅ (exclude_flag kwargs) = Some Imds
     /\ Sync.__init__ ∅ kwargs
        = Sync.holding (construct Synchronous Imds (delegate_kwargs kwargs))
     /\ Aio.__init__ ∅ kwargs
        = Aio.holding (construct Asynchronous Imds (delegate_kwargs kwargs)))
  /\ (~ present environ IDENTITY_ENDPOINT ->
      ~ present environ MSI_ENDPOINT ->
      exclude_flag kwargs = true
      \/ (exists var, In var WORKLOAD_IDENTITY_VARS /\ ~ present environ var) ->
      Sync.resolve environ (exclude_flag kwargs) = Some Imds
      /\ Aio.resolve environ (exclude_flag kwargs) = Some Imds
      /\ Sync.__init__ environ kwargs
         = Sync.holding (construct Synchronous Imds (delegate_kwargs kwargs))
      /\ Aio.__init__ environ kwargs
         = Aio.holding (construct Asynchronous Imds (delegate_kwargs kwargs))).
Proof.
  split.
  - intros Hvars. apply imds_when_nothing_matches.
    + rewrite get_empty. reflexivity.
    + rewrite get_empty. reflexivity.
    + assert (Hsome : exists var, In var WORKLOAD_IDENTITY_VARS)
        by (destruct WORKLOAD_IDENTITY_VARS as [|var vars];
            [congruence | exists var; left; reflexivity]).
      destruct Hsome as [var Hin].
      apply (workload_guard_missing ∅ _ var Hin), not_present_empty.
  - intros Hendpoint%truthy_get_absent Hmsi%truthy_get_absent Hskip.
    apply imds_when_nothing_matches; [exact Hendpoint | exact Hmsi |].
    destruct Hskip as [Hflag | (var & Hin & Habsent)].
    + rewrite Hflag. apply andb_false_r.
    + apply (workload_guard_missing environ _ var Hin Habsent).
Qed.

(** ** Empty strings *)

Lemma all_ext (environ environ' : gmap string string) (vars : list string) :
  (forall name, truthy (os_environ_get environ name)
                = truthy (os_environ_get environ' name)) ->
  py_all (map (os_environ_get environ) vars)
  = py_all (map (os_environ_get environ') vars).
Proof.
  intros Hsame. unfold py_all.
  induction vars as [|var vars IH]; [reflexivity|].
  cbn [map forallb]. rewrite Hsame, IH. reflexivity.
Qed.

(** The guards read the environment through the truth value of its
    lookups only. *)
Lemma resolve_ext (environ environ' : gmap string string) (exclude : bool) :
  (forall name, truthy (os_environ_get environ name)
                = truthy (os_environ_get environ' name)) ->
  Sync.resolve environ exclude = Sync.resolve environ' exclude
  /\ Aio.resolve environ exclude = Aio.resolve environ' exclude.
Proof.
  intros Hsame. unfold Sync.resolve, Aio.resolve.
  rewrite !Hsame, (all_ext environ environ' _ Hsame). split; reflexivity.
Qed.

Lemma truthy_get_blank environ (blank name : string) :
  truthy (os_environ_get (<[blank:=""]> environ) name)
  = truthy (os_environ_get (delete blank environ) name).
Proof.
  unfold os_environ_get. destruct (decide (blank = name)) as [->|Hne].
  - rewrite lookup_insert_eq, lookup_delete_eq. reflexivity.
  - rewrite lookup_insert_ne, lookup_delete_ne by exact Hne. reflexivity.
Qed.

Lemma client_id_drop_empty environ (popped : PyVal) :
  let before := py_or popped (os_environ_get environ AZURE_CLIENT_ID) in
  let after := py_or popped (os_environ_get (drop_empty environ) AZURE_CLIENT_ID) in
  truthy after = truthy before /\ (truthy before = true -> after = before).
Proof.
  unfold py_or. destruct (truthy popped) eqn:Hpopped.
  - split; reflexivity.
  - split; [apply truthy_get_drop_empty|].
    intros (v & Hv & Hne)%truthy_get_present.
    unfold os_environ_get. rewrite lookup_drop_empty, Hv.
    apply String.eqb_neq in Hne. rewrite Hne. reflexivity.
Qed.

(** Whether a variable is present is all its lookup tells the guards. *)
Lemma same_presence environ environ' (name : string) :
  (present environ name <-> present environ' name) ->
  truthy (os_environ_get environ name) = truthy (os_environ_get environ' name).
Proof.
  rewrite <- !truthy_get_present.
  destruct (truthy (os_environ_get environ name)),
    (truthy (os_environ_get environ' name)); intros [Hto Hfrom]; auto.
  symmetry. auto.
Qed.

(** C8.  Only the variables bound to non-empty strings count.  Two
    environments in which the same variables are present select the same
    class, whatever the values; binding a variable to the empty string
    selects what unbinding it selects; and the class selected for an
    environment is the one selected for it with every empty-string binding
    removed.  This holds in both variants.  The whole constructor is
    unchanged by the removal as well once WORKLOAD_IDENTITY_VARS lists the
    two variables the workload-identity branch reads by subscript. *)
Theorem empty_string_counts_as_absent environ kwargs (exclude : bool) :
  (forall environ' : gmap string string,
     (forall name, present environ name <-> present environ' name) ->
     Sync.resolve environ exclude = Sync.resolve environ' exclude
     /\ Aio.resolve environ exclude = Aio.resolve environ' exclude)
  /\ (forall name,
       Sync.resolve (<[name:=""]> environ) exclude
       = Sync.resolve (delete name environ) exclude
       /\ Aio.resolve (<[name:=""]> environ) exclude
          = Aio.resolve (delete name environ) exclude)
  /\ Sync.resolve (drop_empty environ) exclude = Sync.resolve environ exclude
  /\ Aio.resolve (drop_empty environ) exclude = Aio.resolve environ exclude
  /\ (In AZURE_TENANT_ID WORKLOAD_IDENTITY_VARS ->
      In AZURE_FEDERATED_TOKEN_FILE WORKLOAD_IDENTITY_VARS ->
      Sync.__init__ (drop_empty environ) kwargs = Sync.__init__ environ kwargs
      /\ Aio.__init__ (drop_empty environ) kwargs = Aio.__init__ environ kwargs).
Proof.
  destruct (resolve_ext (drop_empty environ) environ exclude
              (truthy_get_drop_empty environ)) as [Hsync Haio].
  split; [|split; [|split; [exact Hsync | split; [exact Haio|]]]].
  - intros environ' Hsame. apply resolve_ext.
    intros name. apply same_presence, Hsame.
  - intros name. apply resolve_ext. intros var. apply truthy_get_blank.
  - intros Htenant Hfile.
    open_init. rewrite !truthy_get_drop_empty, all_drop_empty.
    destruct (truthy (os_environ_get environ IDENTITY_ENDPOINT));
      [split; reflexivity|].
    destruct (truthy (os_environ_get environ MSI_ENDPOINT));
      [split; reflexivity|].
    destruct (py_all _) eqn:Hall; cbn [andb]; [|split; reflexivity].
    destruct (negb _); [|split; reflexivity].
    rewrite all_present_forall in Hall.
    rewrite !getitem_drop_empty by auto.
    match goal with
    | |- context [py_or ?popped (os_environ_get (drop_empty environ) _)] =>
        destruct (client_id_drop_empty environ popped) as [Htruthy Hsame]
    end.
    cbv zeta in Htruthy, Hsame. rewrite Htruthy.
    destruct (truthy (py_or _ (os_environ_get environ AZURE_CLIENT_ID)));
      cbn [negb]; [|split; reflexivity].
    rewrite Hsame by reflexivity. split; reflexivity.
Qed.

End Properties.

(** ** What the asynchronous variant adds to the identity-endpoint branch *)

Lemma aio_resolve_some `{names : EnvironmentVariables.Names}
    (environ : gmap string string) (exclude : bool) :
  exists cls, Aio.resolve environ exclude = Some cls.
Proof. unfold Aio.resolve. split_guards; eexists; reflexivity. Qed.

(** C10.  Whenever the asynchronous constructor returns, the credential
    holds a delegate, and its [get_token] is the call of that delegate: the
    CredentialUnavailableError of the method body cannot occur.  The
    synchronous constructor, when IDENTITY_ENDPOINT is present and
    IDENTITY_HEADER and IMDS_ENDPOINT are not, returns a credential without
    delegate, and such an environment exists. *)
Theorem aio_always_holds_a_delegate_sync_may_hold_none :
  (forall (names : EnvironmentVariables.Names) (classes : DelegateClasses)
          (environ : gmap string string) (kwargs : gmap string PyVal)
          (self : Aio.ManagedIdentityCredential),
     Aio.__init__ environ kwargs = Ok self ->
     exists c, Aio._credential self = Some c
       /\ forall scopes claims tenant_id kw,
            Aio.get_token self scopes claims tenant_id kw
            = Invoke (provider_get_token c scopes claims tenant_id kw) Return)
  /\ (forall (names : EnvironmentVariables.Names) (classes : DelegateClasses)
             (environ : gmap string string) (kwargs : gmap string PyVal),
        present environ EnvironmentVariables.IDENTITY_ENDPOINT ->
        ~ present environ EnvironmentVariables.IDENTITY_HEADER ->
        ~ present environ EnvironmentVariables.IMDS_ENDPOINT ->
        Sync.__init__ environ kwargs = Ok (Sync.Build_ManagedIdentityCredential None)
        /\ forall scopes claims tenant_id kw,
             Sync.get_token (Sync.Build_ManagedIdentityCredential None)
               scopes claims tenant_id kw
             = Throw (CredentialUnavailableError Sync.unavailable_message))
  /\ (exists environ : gmap string string,
        present environ "IDENTITY_ENDPOINT"
        /\ ~ present environ "IDENTITY_HEADER"
        /\ ~ present environ "IMDS_ENDPOINT"
        /\ forall classes : DelegateClasses,
             Sync.__init__ (names := azure_names) environ ∅
             = Ok (Sync.Build_ManagedIdentityCredential None)).
Proof.
  split; [|split].
  - intros names classes environ kwargs self Hinit.
    assert (Hlink := aio_init_resolve environ kwargs). rewrite Hinit in Hlink.
    destruct (aio_resolve_some environ (exclude_flag kwargs)) as [cls Hcls].
    rewrite Hcls in Hlink. destruct self as [[c|]]; [|discriminate Hlink].
    exists c. split; reflexivity.
  - intros names classes environ kwargs Hendpoint%truthy_get_present
      Hheader%truthy_get_absent Himds%truthy_get_absent.
    open_init. rewrite Hendpoint, Hheader, Himds. split; reflexivity.
  - exists bare_endpoint_environ. rewrite <- !truthy_get_absent.
    split; [exists "http://x"; split; [reflexivity | discriminate]|].
    split; [vm_compute; reflexivity|]. split; [vm_compute; reflexivity|].
    intros classes. open_init.
    replace (truthy (os_environ_get bare_endpoint_environ
                       (EnvironmentVariables.IDENTITY_ENDPOINT (Names := azure_names))))
      with true by (vm_compute; reflexivity).
    replace (truthy (os_environ_get bare_endpoint_environ
                       (EnvironmentVariables.IDENTITY_HEADER (Names := azure_names))))
      with false by (vm_compute; reflexivity).
    replace (truthy (os_environ_get bare_endpoint_environ
                       (EnvironmentVariables.IMDS_ENDPOINT (Names := azure_names))))
      with false by (vm_compute; reflexivity).
    reflexivity.
Qed.

(** ** Requesting a token *)

(** C2.  In both variants [get_token] raises CredentialUnavailableError of
    its own accord exactly when the credential holds no delegate, and the
    message then says that the platform could not be determined from
    environment variables and gives the troubleshooting address.  When a
    delegate is held the method is the single call of the delegate's
    [get_token] with the same scopes, claims, tenant_id and keyword
    arguments, and what that call yields, a token or an exception, is what
    the method yields. *)
Theorem get_token_forwards_or_reports_unavailable :
  get_token_contract Sync._credential Sync.get_token Sync.unavailable_message
  /\ actionable Sync.unavailable_message = true
  /\ get_token_contract Aio._credential Aio.get_token Aio.unavailable_message
  /\ actionable Aio.unavailable_message = true.
Proof.
  repeat apply conj; try (vm_compute; reflexivity).
  - intros [[c|]] scopes claims tenant_id kwargs;
      unfold Sync.get_token; cbn [Sync._credential].
    + split; [split; [intros [m Hm]; discriminate Hm | discriminate]|].
      split; [discriminate|]. intros c' [= <-].
      split; [reflexivity | intros W h w; apply run_invoke_return].
    + split; [split; [reflexivity | intros _; eexists; reflexivity]|].
      split; [reflexivity | discriminate].
  - intros [[c|]] scopes claims tenant_id kwargs;
      unfold Aio.get_token; cbn [Aio._credential].
    + split; [split; [intros [m Hm]; discriminate Hm | discriminate]|].
      split; [discriminate|]. intros c' [= <-].
      split; [reflexivity | intros W h w; apply run_invoke_return].
    + split; [split; [reflexivity | intros _; eexists; reflexivity]|].
      split; [reflexivity | discriminate].
Qed.

(** ** Closing *)

Lemma run_call_unit {W : Type} (h : Delegates W) (c : ProviderCall unit) (w : W) :
  never_fails h c ->
  run h (Invoke c (fun _ => Return tt)) w = (Ok tt, (h unit c w).2).
Proof.
  intros Hok. specialize (Hok w). cbn [run].
  destruct (h unit c w) as [[[]|e] w']; [reflexivity | discriminate Hok].
Qed.

(** C9.  With delegates whose [__exit__] and [close] do not fail, closing
    a credential or leaving its scope completes without exception in any
    state of the world, and so does closing it a second time right after; a
    credential without delegate calls nothing and leaves the world as it
    was; and when the delegate's own closing is idempotent the second close
    changes nothing. *)
Theorem close_never_raises {W : Type} (h : Delegates W) :
  (forall c args, never_fails h (provider_exit c args)) ->
  (forall c, never_fails h (provider_close c)) ->
  forall (s : Sync.ManagedIdentityCredential) (a : Aio.ManagedIdentityCredential)
         (args : list PyVal) (w : W),
    ((run h (Sync.close s) w).1 = Ok tt
     /\ (run h (Sync.__exit__ s args) w).1 = Ok tt
     /\ (run h (Aio.close a) w).1 = Ok tt)
    /\ ((run h (Sync.close s) (run h (Sync.close s) w).2).1 = Ok tt
        /\ (run h (Aio.close a) (run h (Aio.close a) w).2).1 = Ok tt)
    /\ (Sync._credential s = None ->
        Sync.close s = Return tt /\ Sync.__exit__ s args = Return tt
        /\ run h (Sync.close s) w = (Ok tt, w)
        /\ run h (Sync.__exit__ s args) w = (Ok tt, w))
    /\ (Aio._credential a = None ->
        Aio.close a = Return tt /\ run h (Aio.close a) w = (Ok tt, w))
    /\ ((forall c, idempotent h (provider_exit c [])) ->
        run h (Sync.close s) (run h (Sync.close s) w).2
        = (Ok tt, (run h (Sync.close s) w).2))
    /\ ((forall c, idempotent h (provider_close c)) ->
        run h (Aio.close a) (run h (Aio.close a) w).2
        = (Ok tt, (run h (Aio.close a) w).2)).
Proof.
  intros Hexit Hclose [[c|]] [[c'|]] args w;
    unfold Sync.close, Sync.__exit__, Aio.close;
    cbn [Sync._credential Aio._credential];
    rewrite ?run_call_unit by auto; cbn [run fst snd];
    rewrite ?run_call_unit by auto; cbn [fst snd].
  all: repeat apply conj; try reflexivity; try discriminate.
  all: intros Hsame; repeat apply conj; try reflexivity.
  all: rewrite Hsame; reflexivity.
Qed.

(** ** The two variants side by side *)

Ltac decide_guards :=
  repeat match goal with
         | |- context [truthy (os_environ_get ?environ ?name)] =>
             let b := eval vm_compute in (truthy (os_environ_get environ name)) in
             replace (truthy (os_environ_get environ name)) with b
               by (vm_compute; reflexivity)
         end.

(** C1.  The two constructors do not select the same class for every
    environment: with IDENTITY_ENDPOINT as the only variable set and no
    option given, the synchronous one returns a credential without
    delegate while the asynchronous one constructs a CloudShellCredential
    and holds it unless the constructor of that class raises, which the
    one of the sample classes does not.  ([sync_aio_agree] covers all
    other environments.) *)
Theorem variants_differ_on_bare_identity_endpoint :
  Sync.resolve (names := azure_names) bare_endpoint_environ false = None
  /\ Aio.resolve (names := azure_names) bare_endpoint_environ false = Some CloudShell
  /\ (forall classes : DelegateClasses,
        Sync.__init__ (names := azure_names) bare_endpoint_environ ∅
        = Ok (Sync.Build_ManagedIdentityCredential None)
        /\ Aio.__init__ (names := azure_names) bare_endpoint_environ ∅
           = Aio.holding (construct Asynchronous CloudShell ∅))
  /\ Aio.__init__ (names := azure_names) (classes := sample_classes)
       bare_endpoint_environ ∅
     = Ok (Aio.Build_ManagedIdentityCredential (Some (Build_Provider CloudShell ∅))).
Proof.
  split; [vm_compute; reflexivity|]. split; [vm_compute; reflexivity|].
  split; [|vm_compute; reflexivity].
  intros classes. open_init. decide_guards.
  rewrite delete_empty. split; reflexivity.
Qed.

(** ** The theorems at the sample environments *)

Ltac is_present := apply truthy_get_present; vm_compute; reflexivity.
Ltac is_absent := apply truthy_get_absent; vm_compute; reflexivity.

Lemma identity_header_selects_fabric_or_app_service_witness :
  Sync.__init__ (names := azure_names) (classes := sample_classes)
    service_fabric_environ ∅
  = Ok (Sync.Build_ManagedIdentityCredential
          (Some (Build_Provider ServiceFabric (delegate_kwargs ∅))))
  /\ Aio.__init__ (names := azure_names) (classes := sample_classes)
       app_service_environ excluding_workload_identity
     = Ok (Aio.Build_ManagedIdentityCredential
             (Some (Build_Provider AppService
                      (delegate_kwargs excluding_workload_identity)))).
Proof.
  split.
  - destruct (identity_header_selects_fabric_or_app_service
                (names := azure_names) (classes := sample_classes)
                service_fabric_environ ∅ false) as [Hfabric _];
      [is_present | is_present |].
    destruct Hfabric as (_ & _ & Hsync & _); [is_present|].
    rewrite Hsync. vm_compute. reflexivity.
  - destruct (identity_header_selects_fabric_or_app_service
                (names := azure_names) (classes := sample_classes)
                app_service_environ excluding_workload_identity false)
      as [_ Happ]; [is_present | is_present |].
    destruct Happ as (_ & _ & _ & Haio); [is_absent|].
    rewrite Haio. vm_compute. reflexivity.
Defined.

Lemma msi_endpoint_selects_ml_or_cloud_shell_witness :
  Sync.__init__ (names := azure_names) (classes := sample_classes)
    azure_ml_environ ∅
  = Ok (Sync.Build_ManagedIdentityCredential
          (Some (Build_Provider AzureML (delegate_kwargs ∅))))
  /\ Aio.__init__ (names := azure_names) (classes := sample_classes)
       cloud_shell_environ ∅
     = Ok (Aio.Build_ManagedIdentityCredential
             (Some (Build_Provider CloudShell (delegate_kwargs ∅)))).
Proof.
  split.
  - destruct (msi_endpoint_selects_ml_or_cloud_shell
                (names := azure_names) (classes := sample_classes)
                azure_ml_environ ∅ false) as [Hml _]; [is_absent | is_present |].
    destruct Hml as (_ & _ & Hsync & _); [is_present|].
    rewrite Hsync. vm_compute. reflexivity.
  - destruct (msi_endpoint_selects_ml_or_cloud_shell
                (names := azure_names) (classes := sample_classes)
                cloud_shell_environ ∅ false) as [_ Hshell];
      [is_absent | is_present |].
    destruct Hshell as (_ & _ & _ & Haio); [is_absent|].
    rewrite Haio. vm_compute. reflexivity.
Defined.

Lemma workload_identity_needs_client_id_witness :
  Sync.__init__ (names := azure_names) (classes := sample_classes)
    workload_environ_without_client ∅
  = Raise (ValueError missing_client_id_message)
  /\ Aio.__init__ (names := azure_names) (classes := sample_classes)
       workload_environ_without_client ∅
     = Raise (ValueError missing_client_id_message).
Proof.
  apply (workload_identity_needs_client_id
           (names := azure_names) (classes := sample_classes)
           workload_environ_without_client ∅).
  - is_absent.
  - is_absent.
  - intros var [<-|[<-|[<-|[]]]]; is_present.
  - vm_compute. reflexivity.
  - intros v Hv. vm_compute in Hv. discriminate Hv.
  - is_absent.
Defined.

Lemma workload_identity_unless_excluded_witness :
  Sync.__init__ (names := azure_names) (classes := sample_classes)
    workload_environ ∅
  = Ok (Sync.Build_ManagedIdentityCredential
          (Some (Build_Provider WorkloadIdentity
                   (list_to_map [("tenant_id", PyStr "tenant");
                                 ("client_id", PyStr "client");
                                 ("file", PyStr "/var/run/secrets/token")]))))
  /\ Aio.__init__ (names := azure_names) (classes := sample_classes)
       workload_environ excluding_workload_identity
     = Ok (Aio.Build_ManagedIdentityCredential (Some (Build_Provider Imds ∅))).
Proof.
  assert (Habsent : ~ present workload_environ "IDENTITY_ENDPOINT") by is_absent.
  assert (Hmsi : ~ present workload_environ "MSI_ENDPOINT") by is_absent.
  assert (Hall : forall var,
             In var (EnvironmentVariables.WORKLOAD_IDENTITY_VARS (Names := azure_names)) ->
             present workload_environ var)
    by (intros var [<-|[<-|[<-|[]]]]; is_present).
  split.
  - destruct (workload_identity_unless_excluded
                (names := azure_names) (classes := sample_classes)
                workload_environ ∅ Habsent Hmsi Hall) as (_ & _ & Hbuilt).
    rewrite (proj1 (Hbuilt eq_refl "tenant" "client" "/var/run/secrets/token"
                      eq_refl eq_refl ltac:(discriminate) eq_refl eq_refl eq_refl)).
    vm_compute. reflexivity.
  - destruct (workload_identity_unless_excluded
                (names := azure_names) (classes := sample_classes)
                workload_environ excluding_workload_identity Habsent Hmsi Hall)
      as (_ & Himds & _).
    rewrite (proj2 (Himds eq_refl)). vm_compute. reflexivity.
Defined.

Lemma imds_is_the_fallback_witness :
  Sync.__init__ (names := azure_names) (classes := sample_classes) ∅ ∅
  = Ok (Sync.Build_ManagedIdentityCredential
          (Some (Build_Provider Imds (delegate_kwargs ∅))))
  /\ Aio.__init__ (names := azure_names) (classes := sample_classes)
       workload_environ_without_client excluding_workload_identity
     = Ok (Aio.Build_ManagedIdentityCredential
             (Some (Build_Provider Imds (delegate_kwargs excluding_workload_identity)))).
Proof.
  split.
  - destruct (imds_is_the_fallback
                (names := azure_names) (classes := sample_classes) ∅ ∅)
      as [Hempty _].
    destruct Hempty as (_ & _ & Hsync & _); [vm_compute; discriminate|].
    rewrite Hsync. vm_compute. reflexivity.
  - destruct (imds_is_the_fallback
                (names := azure_names) (classes := sample_classes)
                workload_environ_without_client excluding_workload_identity)
      as [_ Hfallback].
    destruct Hfallback as (_ & _ & _ & Haio);
      [is_absent | is_absent | left; vm_compute; reflexivity |].
    rewrite Haio. vm_compute. reflexivity.
Defined.

Lemma empty_string_counts_as_absent_witness :
  (Sync.resolve (names := azure_names) app_service_environ false
   = Sync.resolve (names := azure_names) app_service_environ_elsewhere false
   /\ Aio.resolve (names := azure_names) app_service_environ false
      = Aio.resolve (names := azure_names) app_service_environ_elsewhere false)
  /\ (Sync.__init__ (names := azure_names) (classes := sample_classes)
        (drop_empty cloud_shell_environ) ∅
      = Sync.__init__ (names := azure_names) (classes := sample_classes)
          cloud_shell_environ ∅
      /\ Aio.__init__ (names := azure_names) (classes := sample_classes)
           (drop_empty cloud_shell_environ) ∅
         = Aio.__init__ (names := azure_names) (classes := sample_classes)
             cloud_shell_environ ∅).
Proof.
  split.
  - destruct (empty_string_counts_as_absent
                (names := azure_names) (classes := sample_classes)
                app_service_environ ∅ false) as [Hvalues _].
    apply Hvalues. intros name.
    unfold present, app_service_environ, app_service_environ_elsewhere.
    rewrite !list_to_map_cons, !list_to_map_nil. cbn [fst snd].
    destruct (decide (name = "IDENTITY_ENDPOINT")) as [->|Hendpoint].
    { rewrite !lookup_insert_eq.
      split; intros _; eexists; (split; [reflexivity | discriminate]). }
    rewrite !(lookup_insert_ne _ "IDENTITY_ENDPOINT") by congruence.
    destruct (decide (name = "IDENTITY_HEADER")) as [->|Hheader].
    { rewrite !lookup_insert_eq.
      split; intros _; eexists; (split; [reflexivity | discriminate]). }
    rewrite !(lookup_insert_ne _ "IDENTITY_HEADER") by congruence.
    destruct (decide (name = "MSI_ENDPOINT")) as [->|Hmsi].
    { rewrite !lookup_insert_eq.
      split; intros _; eexists; (split; [reflexivity | discriminate]). }
    rewrite !(lookup_insert_ne _ "MSI_ENDPOINT") by congruence.
    rewrite lookup_empty. split; intros (v & Hv & _); discriminate Hv.
  - apply (empty_string_counts_as_absent
             (names := azure_names) (classes := sample_classes)
             cloud_shell_environ ∅ false).
    + right. left. reflexivity.
    + right. right. left. reflexivity.
Defined.

Lemma close_never_raises_witness :
  let s := Sync.Build_ManagedIdentityCredential (Some (Build_Provider Imds ∅)) in
  (run sample_delegates (Sync.close s) []).1 = Ok tt
  /\ (run sample_delegates (Sync.close s) (run sample_delegates (Sync.close s) []).2).1
     = Ok tt.
Proof.
  intros s.
  destruct (close_never_raises sample_delegates
              (fun c args w => eq_refl) (fun c w => eq_refl)
              s (Aio.Build_ManagedIdentityCredential None) [] [])
    as ((Hclose & _) & (Htwice & _) & _).
  exact (conj Hclose Htwice).
Defined.

Lemma aio_always_holds_a_delegate_sync_may_hold_none_witness :
  (exists c, Some (Build_Provider CloudShell ∅) = Some c)
  /\ Sync.__init__ (names := azure_names) (classes := sample_classes) bare_endpoint_environ ∅
     = Ok (Sync.Build_ManagedIdentityCredential None).
Proof.
  destruct aio_always_holds_a_delegate_sync_may_hold_none as (Haio & Hsync & _).
  split.
  - destruct (Haio azure_names sample_classes bare_endpoint_environ ∅
                (Aio.Build_ManagedIdentityCredential
                   (Some (Build_Provider CloudShell ∅)))) as (c & Hc & _).
    + vm_compute. reflexivity.
    + exists c. exact Hc.
  - apply (Hsync azure_names sample_classes bare_endpoint_environ ∅);
      [is_present | is_absent | is_absent].
Defined.

Lemma get_token_forwards_or_reports_unavailable_witness :
  let c := Build_Provider AppService ∅ in
  run sample_delegates
    (Sync.get_token (Sync.Build_ManagedIdentityCredential (Some c))
       [management_scope] None None ∅) []
  = sample_delegates AccessToken
      (provider_get_token c [management_scope] None None ∅) [].
Proof.
  intros c.
  destruct get_token_forwards_or_reports_unavailable as (Hsync & _).
  destruct (Hsync (Sync.Build_ManagedIdentityCredential (Some c))
              [management_scope] None None ∅) as (_ & _ & Hforward).
  destruct (Hforward c eq_refl) as [_ Hrun].
  apply Hrun.
Defined.

(** ** The workload-identity branch in full *)

Section Further.
Context {names : EnvironmentVariables.Names} {classes : DelegateClasses}.
Import EnvironmentVariables.

Implicit Types (environ : gmap string string) (kwargs : gmap string PyVal).

(** What the workload-identity branch comes to, step by step. *)
Lemma workload_outcome environ kwargs :
  truthy (os_environ_get environ IDENTITY_ENDPOINT) = false ->
  truthy (os_environ_get environ MSI_ENDPOINT) = false ->
  py_all (map (os_environ_get environ) WORKLOAD_IDENTITY_VARS) = true ->
  exclude_flag kwargs = false ->
  let client_id :=
    py_or (default PyNone (kwargs !! "client_id"))
      (os_environ_get environ AZURE_CLIENT_ID) in
  let outcome (conv : Convention) : Result Provider :=
    if truthy client_id then
      match environ !! AZURE_TENANT_ID with
      | None => Raise (KeyError AZURE_TENANT_ID)
      | Some tenant =>
          match environ !! AZURE_FEDERATED_TOKEN_FILE with
          | None => Raise (KeyError AZURE_FEDERATED_TOKEN_FILE)
          | Some file =>
              if bool_decide (kwargs !! "tenant_id" = None)
                 && bool_decide (kwargs !! "file" = None)
              then construct conv WorkloadIdentity
                     (list_to_map [("tenant_id", PyStr tenant);
                                   ("client_id", client_id);
                                   ("file", PyStr file)]
                      ∪ delete "client_id" (delegate_kwargs kwargs))
              else Raise TypeError
          end
      end
    else Raise (ValueError missing_client_id_message) in
  Sync.__init__ environ kwargs = Sync.holding (outcome Synchronous)
  /\ Aio.__init__ environ kwargs = Aio.holding (outcome Asynchronous).
Proof.
  intros Hendpoint Hmsi Hall Hflag client_id outcome.
  subst outcome client_id. revert Hflag. open_init. intros Hflag.
  rewrite Hendpoint, Hmsi, Hall, Hflag, client_id_after_flag. cbn [andb negb].
  replace (default PyNone (kwargs !! "client_id"))
    with (match kwargs !! "client_id" with Some v => v | None => PyNone end)
    by (destruct (kwargs !! "client_id"); reflexivity).
  destruct (truthy (py_or _ _)); cbn [negb]; [|split; reflexivity].
  unfold os_environ_getitem.
  destruct (environ !! AZURE_TENANT_ID) as [tenant|]; [|split; reflexivity].
  destruct (environ !! AZURE_FEDERATED_TOKEN_FILE) as [file|]; [|split; reflexivity].
  cbn [bind].
  unfold Sync.WorkloadIdentityCredential, Aio.WorkloadIdentityCredential,
    instantiate.
  cbn [forallb fst].
  rewrite lookup_delete_eq.
  rewrite !(lookup_delete_ne _ _ "tenant_id") by discriminate.
  rewrite !(lookup_delete_ne _ _ "file") by discriminate.
  rewrite (bool_decide_eq_true_2 (None = None)) by reflexivity.
  rewrite andb_true_r. cbn [andb].
  destruct (_ && _); split; reflexivity.
Qed.

(** Outside the workload-identity branch a constructor is the construction
    of the selected delegate, or nothing at all. *)
Lemma init_elsewhere environ kwargs :
  match Sync.resolve environ (exclude_flag kwargs) with
  | None => Sync.__init__ environ kwargs = Ok (Sync.Build_ManagedIdentityCredential None)
  | Some WorkloadIdentity => True
  | Some cls =>
      Sync.__init__ environ kwargs
      = Sync.holding (construct Synchronous cls (delegate_kwargs kwargs))
  end
  /\ match Aio.resolve environ (exclude_flag kwargs) with
     | None => False
     | Some WorkloadIdentity => True
     | Some cls =>
         Aio.__init__ environ kwargs
         = Aio.holding (construct Asynchronous cls (delegate_kwargs kwargs))
     end.
Proof. open_init. split; split_guards; reflexivity || exact I. Qed.

Lemma resolve_workload_inv environ (exclude : bool) :
  Sync.resolve environ exclude = Some WorkloadIdentity
  \/ Aio.resolve environ exclude = Some WorkloadIdentity ->
  truthy (os_environ_get environ IDENTITY_ENDPOINT) = false
  /\ truthy (os_environ_get environ MSI_ENDPOINT) = false
  /\ py_all (map (os_environ_get environ) WORKLOAD_IDENTITY_VARS) = true
  /\ exclude = false.
Proof.
  unfold Sync.resolve, Aio.resolve.
  destruct (truthy (os_environ_get environ IDENTITY_ENDPOINT));
    [split_guards; intros [H|H]; discriminate H|].
  destruct (truthy (os_environ_get environ MSI_ENDPOINT));
    [split_guards; intros [H|H]; discriminate H|].
  destruct (py_all _), exclude; cbn [andb negb]; intros [H|H];
    try discriminate H; repeat split; reflexivity.
Qed.

Lemma selected_guard environ kwargs :
  workload_identity_selected environ kwargs <->
  truthy (os_environ_get environ IDENTITY_ENDPOINT) = false
  /\ truthy (os_environ_get environ MSI_ENDPOINT) = false
  /\ py_all (map (os_environ_get environ) WORKLOAD_IDENTITY_VARS) = true
  /\ exclude_flag kwargs = false.
Proof.
  unfold workload_identity_selected.
  rewrite <- !truthy_get_absent, all_present_forall. reflexivity.
Qed.

Lemma no_client_id_falsy environ kwargs :
  truthy (py_or (default PyNone (kwargs !! "client_id"))
            (os_environ_get environ AZURE_CLIENT_ID)) = false
  <-> no_client_id environ kwargs.
Proof.
  unfold no_client_id, py_or. rewrite <- truthy_get_absent.
  destruct (kwargs !! "client_id") as [v|]; cbn [from_option id].
  - destruct (truthy v) eqn:Hv.
    + split; [congruence|]. intros [Hoption _].
      specialize (Hoption v eq_refl). congruence.
    + split; [intros Hcid; split; [congruence | exact Hcid] | intros [_ Hcid]; exact Hcid].
  - cbn [truthy]. split; [intros Hcid; split; [discriminate | exact Hcid]|].
    intros [_ Hcid]. exact Hcid.
Qed.

(** Whatever a constructor raises comes from the constructor of the
    selected delegate or from the workload-identity branch itself. *)
Lemma raise_causes environ kwargs (e : Exn) :
  (Sync.__init__ environ kwargs = Raise e ->
   raised_by_delegate Synchronous (Sync.resolve environ (exclude_flag kwargs)) e
   \/ (workload_identity_selected environ kwargs
       /\ raised_by_workload_branch environ kwargs e))
  /\ (Aio.__init__ environ kwargs = Raise e ->
      raised_by_delegate Asynchronous (Aio.resolve environ (exclude_flag kwargs)) e
      \/ (workload_identity_selected environ kwargs
          /\ raised_by_workload_branch environ kwargs e)).
Proof.
  destruct (init_elsewhere environ kwargs) as [Hsync Haio].
  split; intros Hraise.
  - destruct (Sync.resolve environ (exclude_flag kwargs)) as [cls|] eqn:Hcls;
      [|rewrite Hsync in Hraise; discriminate Hraise].
    destruct cls;
      try (rewrite Hsync in Hraise; unfold Sync.holding in Hraise;
           destruct (construct _ _ _) eqn:Hbuilt; [discriminate Hraise|];
           injection Hraise as <-; apply construct_raise_inv in Hbuilt;
           left; eexists _, _; split; [reflexivity | exact Hbuilt]).
    assert (Hguard := resolve_workload_inv environ _ (or_introl Hcls)).
    assert (Hselected := proj2 (selected_guard environ kwargs) Hguard).
    destruct Hguard as (Hendpoint & Hmsi & Hall & Hflag).
    destruct (workload_outcome environ kwargs Hendpoint Hmsi Hall Hflag)
      as [Hnormal _].
    cbv zeta in Hnormal. rewrite Hnormal in Hraise. unfold Sync.holding in Hraise.
    clear Hnormal Hsync Haio. unfold raised_by_workload_branch.
    destruct (truthy (py_or _ _)) eqn:Hclient; cbn [bind] in Hraise;
      [|injection Hraise as <-; right; split; [exact Hselected|]; left;
        split; [reflexivity | apply no_client_id_falsy, Hclient]].
    assert (Hgiven : ~ no_client_id environ kwargs)
      by (rewrite <- no_client_id_falsy; congruence).
    destruct (environ !! AZURE_TENANT_ID) as [tenant|]; cbn [bind] in Hraise;
      [|injection Hraise as <-; right; split; [exact Hselected|]; right; auto].
    destruct (environ !! AZURE_FEDERATED_TOKEN_FILE) as [file|];
      cbn [bind] in Hraise;
      [|injection Hraise as <-; right; split; [exact Hselected|]; right; auto].
    destruct (kwargs !! "tenant_id") as [t|] eqn:Ht;
      [rewrite (bool_decide_eq_false_2 (Some t = None)) in Hraise by discriminate;
       cbn [andb bind] in Hraise; injection Hraise as <-;
       right; split; [exact Hselected|]; right; split; [exact Hgiven|];
       right; right; eauto|].
    destruct (kwargs !! "file") as [f|] eqn:Hf;
      [rewrite (bool_decide_eq_false_2 (Some f = None)) in Hraise by discriminate;
       rewrite andb_false_r in Hraise;
       cbn [bind] in Hraise; injection Hraise as <-;
       right; split; [exact Hselected|]; right; split; [exact Hgiven|];
       right; right; eauto|].
    rewrite (bool_decide_eq_true_2 (None = None)) in Hraise by reflexivity.
    cbn [andb] in Hraise.
    destruct (construct _ _ _) eqn:Hbuilt; [discriminate Hraise|].
    injection Hraise as <-. apply construct_raise_inv in Hbuilt.
    left. eexists _, _. split; [reflexivity | exact Hbuilt].
  - destruct (Aio.resolve environ (exclude_flag kwargs)) as [cls|] eqn:Hcls;
      [|destruct Haio].
    destruct cls;
      try (rewrite Haio in Hraise; unfold Aio.holding in Hraise;
           destruct (construct _ _ _) eqn:Hbuilt; [discriminate Hraise|];
           injection Hraise as <-; apply construct_raise_inv in Hbuilt;
           left; eexists _, _; split; [reflexivity | exact Hbuilt]).
    assert (Hguard := resolve_workload_inv environ _ (or_intror Hcls)).
    assert (Hselected := proj2 (selected_guard environ kwargs) Hguard).
    destruct Hguard as (Hendpoint & Hmsi & Hall & Hflag).
    destruct (workload_outcome environ kwargs Hendpoint Hmsi Hall Hflag)
      as [_ Hnormal].
    cbv zeta in Hnormal. rewrite Hnormal in Hraise. unfold Aio.holding in Hraise.
    clear Hnormal Hsync Haio. unfold raised_by_workload_branch.
    destruct (truthy (py_or _ _)) eqn:Hclient; cbn [bind] in Hraise;
      [|injection Hraise as <-; right; split; [exact Hselected|]; left;
        split; [reflexivity | apply no_client_id_falsy, Hclient]].
    assert (Hgiven : ~ no_client_id environ kwargs)
      by (rewrite <- no_client_id_falsy; congruence).
    destruct (environ !! AZURE_TENANT_ID) as [tenant|]; cbn [bind] in Hraise;
      [|injection Hraise as <-; right; split; [exact Hselected|]; right; auto].
    destruct (environ !! AZURE_FEDERATED_TOKEN_FILE) as [file|];
      cbn [bind] in Hraise;
      [|injection Hraise as <-; right; split; [exact Hselected|]; right; auto].
    destruct (kwargs !! "tenant_id") as [t|] eqn:Ht;
      [rewrite (bool_decide_eq_false_2 (Some t = None)) in Hraise by discriminate;
       cbn [andb bind] in Hraise; injection Hraise as <-;
       right; split; [exact Hselected|]; right; split; [exact Hgiven|];
       right; right; eauto|].
    destruct (kwargs !! "file") as [f|] eqn:Hf;
      [rewrite (bool_decide_eq_false_2 (Some f = None)) in Hraise by discriminate;
       rewrite andb_false_r in Hraise;
       cbn [bind] in Hraise; injection Hraise as <-;
       right; split; [exact Hselected|]; right; split; [exact Hgiven|];
       right; right; eauto|].
    rewrite (bool_decide_eq_true_2 (None = None)) in Hraise by reflexivity.
    cbn [andb] in Hraise.
    destruct (construct _ _ _) eqn:Hbuilt; [discriminate Hraise|].
    injection Hraise as <-. apply construct_raise_inv in Hbuilt.
    left. eexists _, _. split; [reflexivity | exact Hbuilt].
Qed.

(** X1.  When IDENTITY_ENDPOINT and IMDS_ENDPOINT are present and
    IDENTITY_HEADER is not, both constructors build an AzureArcCredential
    from the caller's options, whatever else is set, and hold it unless
    its constructor raises. *)
Theorem identity_endpoint_with_imds_selects_arc environ kwargs (exclude : bool) :
  present environ IDENTITY_ENDPOINT ->
  ~ present environ IDENTITY_HEADER ->
  present environ IMDS_ENDPOINT ->
  Sync.resolve environ exclude = Some AzureArc
  /\ Aio.resolve environ exclude = Some AzureArc
  /\ Sync.__init__ environ kwargs
     = Sync.holding (construct Synchronous AzureArc (delegate_kwargs kwargs))
  /\ Aio.__init__ environ kwargs
     = Aio.holding (construct Asynchronous AzureArc (delegate_kwargs kwargs)).
Proof.
  intros Hendpoint%truthy_get_present Hheader%truthy_get_absent
    Himds%truthy_get_present.
  open_init. rewrite Hendpoint, Hheader, Himds. repeat split; reflexivity.
Qed.

(** X2.  What a constructor raises is either what the constructor of the
    selected delegate class raised, or an exception of the workload-identity
    branch: then neither endpoint variable is present, every variable of
    WORKLOAD_IDENTITY_VARS is, the flag is not set, and the exception is
    the ValueError about the client ID, a KeyError for one of the two
    variables read by subscript, or the TypeError of a repeated keyword.
    No other branch raises anything of its own. *)
Theorem own_exceptions_only_in_workload_branch environ kwargs (e : Exn) :
  (Sync.__init__ environ kwargs = Raise e ->
   raised_by_delegate Synchronous (Sync.resolve environ (exclude_flag kwargs)) e
   \/ (workload_identity_selected environ kwargs
       /\ (e = ValueError missing_client_id_message
           \/ e = KeyError AZURE_TENANT_ID
           \/ e = KeyError AZURE_FEDERATED_TOKEN_FILE
           \/ e = TypeError)))
  /\ (Aio.__init__ environ kwargs = Raise e ->
      raised_by_delegate Asynchronous (Aio.resolve environ (exclude_flag kwargs)) e
      \/ (workload_identity_selected environ kwargs
          /\ (e = ValueError missing_client_id_message
              \/ e = KeyError AZURE_TENANT_ID
              \/ e = KeyError AZURE_FEDERATED_TOKEN_FILE
              \/ e = TypeError))).
Proof.
  destruct (raise_causes environ kwargs e) as [Hsync Haio].
  split; intros Hraise;
    [destruct (Hsync Hraise) as [Hdelegate|[Hselected Hown]]
    |destruct (Haio Hraise) as [Hdelegate|[Hselected Hown]]];
    try (left; exact Hdelegate); right; (split; [exact Hselected|]);
    destruct Hown as [[-> _]|[_ [[-> _]|[[-> _]|[-> _]]]]]; auto.
Qed.

(** X3.  When WORKLOAD_IDENTITY_VARS lists AZURE_TENANT_ID and
    AZURE_FEDERATED_TOKEN_FILE, the subscript reads are covered by the guard
    and a constructor raises no KeyError of its own: what it raises comes
    from the constructor of the selected delegate, or is the ValueError,
    and then no client ID was given, or the TypeError of the call, and then
    a client ID was given and the caller passed [tenant_id] or [file] among
    the options. *)
Theorem constructor_failure_causes environ kwargs (e : Exn) :
  In AZURE_TENANT_ID WORKLOAD_IDENTITY_VARS ->
  In AZURE_FEDERATED_TOKEN_FILE WORKLOAD_IDENTITY_VARS ->
  (Sync.__init__ environ kwargs = Raise e ->
   raised_by_delegate Synchronous (Sync.resolve environ (exclude_flag kwargs)) e
   \/ (e = ValueError missing_client_id_message /\ no_client_id environ kwargs)
   \/ (e = TypeError /\ ~ no_client_id environ kwargs
       /\ (is_Some (kwargs !! "tenant_id") \/ is_Some (kwargs !! "file"))))
  /\ (Aio.__init__ environ kwargs = Raise e ->
      raised_by_delegate Asynchronous (Aio.resolve environ (exclude_flag kwargs)) e
      \/ (e = ValueError missing_client_id_message /\ no_client_id environ kwargs)
      \/ (e = TypeError /\ ~ no_client_id environ kwargs
          /\ (is_Some (kwargs !! "tenant_id") \/ is_Some (kwargs !! "file")))).
Proof.
  intros Htenant Hfile.
  destruct (raise_causes environ kwargs e) as [Hsync Haio].
  split; intros Hraise;
    [destruct (Hsync Hraise) as [Hdelegate|[Hselected Hown]]
    |destruct (Haio Hraise) as [Hdelegate|[Hselected Hown]]];
    try (left; exact Hdelegate); right;
    destruct Hselected as (_ & _ & Hall & _);
    destruct (Hall _ Htenant) as (tenant & Hbound & _);
    destruct (Hall _ Hfile) as (file & Hbound' & _);
    destruct Hown as [Hvalue|[Hgiven [[_ Hnone]|[[_ Hnone]|[-> Hrepeated]]]]];
    try congruence; auto.
Qed.

(** X4.  In the workload-identity branch, with a client ID given and the
    tenant ID and token file bound, options that carry [tenant_id] or [file]
    make both constructors raise TypeError: the constructor passes these
    keywords itself. *)
Theorem repeated_keyword_is_rejected environ kwargs :
  workload_identity_selected environ kwargs ->
  ~ no_client_id environ kwargs ->
  is_Some (environ !! AZURE_TENANT_ID) ->
  is_Some (environ !! AZURE_FEDERATED_TOKEN_FILE) ->
  is_Some (kwargs !! "tenant_id") \/ is_Some (kwargs !! "file") ->
  Sync.__init__ environ kwargs = Raise TypeError
  /\ Aio.__init__ environ kwargs = Raise TypeError.
Proof.
  intros (Hendpoint & Hmsi & Hall & Hflag)%selected_guard Hclient
    [tenant Htenant] [file Hfile] Hrepeated.
  destruct (workload_outcome environ kwargs Hendpoint Hmsi Hall Hflag)
    as [Hsync Haio].
  cbv zeta in Hsync, Haio. rewrite Hsync, Haio. clear Hsync Haio.
  rewrite <- no_client_id_falsy in Hclient.
  destruct (truthy (py_or _ _)); [|congruence].
  rewrite Htenant, Hfile.
  destruct Hrepeated as [[v Hv]|[v Hv]]; rewrite Hv.
  - rewrite (bool_decide_eq_false_2 (Some v = None)) by discriminate.
    split; reflexivity.
  - rewrite (bool_decide_eq_false_2 (Some v = None)) by discriminate.
    rewrite andb_false_r. split; reflexivity.
Qed.

(** X5.  In the workload-identity branch a truthy [client_id] option is
    the client ID the WorkloadIdentityCredential is constructed with,
    whether AZURE_CLIENT_ID is set or not; the tenant ID and the token file
    come from the environment.  The credential holds that delegate unless
    its constructor raises. *)
Theorem client_id_option_overrides_environment environ kwargs
    (v : PyVal) (tenant file : string) :
  workload_identity_selected environ kwargs ->
  kwargs !! "client_id" = Some v -> truthy v = true ->
  environ !! AZURE_TENANT_ID = Some tenant ->
  environ !! AZURE_FEDERATED_TOKEN_FILE = Some file ->
  kwargs !! "tenant_id" = None -> kwargs !! "file" = None ->
  exists args : gmap string PyVal,
    Sync.__init__ environ kwargs
    = Sync.holding (construct Synchronous WorkloadIdentity args)
    /\ Aio.__init__ environ kwargs
       = Aio.holding (construct Asynchronous WorkloadIdentity args)
    /\ args !! "client_id" = Some v
    /\ args !! "tenant_id" = Some (PyStr tenant)
    /\ args !! "file" = Some (PyStr file).
Proof.
  intros (Hendpoint & Hmsi & Hall & Hflag)%selected_guard Hoption Htruthy
    Htenant Hfile Hkw_tenant Hkw_file.
  destruct (workload_outcome environ kwargs Hendpoint Hmsi Hall Hflag)
    as [Hsync Haio].
  cbv zeta in Hsync, Haio. rewrite Hsync, Haio. clear Hsync Haio.
  rewrite Hoption. cbn [from_option id]. unfold py_or. rewrite Htruthy, Htruthy.
  rewrite Htenant, Hfile, Hkw_tenant, Hkw_file.
  rewrite (bool_decide_eq_true_2 (None = None)) by reflexivity.
  cbn [andb]. eexists. split; [reflexivity|]. split; [reflexivity|].
  rewrite !list_to_map_cons, list_to_map_nil.
  repeat split; apply lookup_union_Some_l.
  - rewrite lookup_insert_ne by discriminate. apply lookup_insert_eq.
  - apply lookup_insert_eq.
  - rewrite !lookup_insert_ne by discriminate. apply lookup_insert_eq.
Qed.

(** ** Options on their way to the delegate *)

Lemma forwards_plain kwargs (cls : CredentialSourceKind) :
  forwards_options kwargs
    (Build_Provider cls (delete "_exclude_workload_identity_credential" kwargs)).
Proof.
  unfold forwards_options. cbn [init_kwargs provider_class].
  split; [apply lookup_delete_eq|]. split; [reflexivity|].
  intros key Hflag _ _ _. apply lookup_delete_ne. congruence.
Qed.

Lemma forwards_workload kwargs (tenant_id client_id file : PyVal) :
  forwards_options kwargs
    (Build_Provider WorkloadIdentity
       (list_to_map [("tenant_id", tenant_id); ("client_id", client_id);
                     ("file", file)]
        ∪ delete "client_id"
            (delete "_exclude_workload_identity_credential" kwargs))).
Proof.
  unfold forwards_options. cbn [init_kwargs provider_class].
  rewrite !list_to_map_cons, list_to_map_nil.
  split; [|split; [congruence|]].
  - rewrite lookup_union_r
      by (rewrite !lookup_insert_ne by discriminate; apply lookup_empty).
    rewrite lookup_delete_ne by discriminate. apply lookup_delete_eq.
  - intros key Hflag Htenant Hclient Hfile.
    rewrite lookup_union_r
      by (rewrite !lookup_insert_ne by congruence; apply lookup_empty).
    rewrite !lookup_delete_ne by congruence. reflexivity.
Qed.

(** X6.  Whatever branch is taken, the delegate a constructor builds is
    handed the caller's options: the exclusion flag never reaches it, a
    delegate other than WorkloadIdentityCredential gets exactly the
    remaining options ([client_id] and [identity_config] included), and a
    WorkloadIdentityCredential gets them too apart from the three keywords
    the constructor sets. *)
Theorem options_reach_the_delegate environ kwargs (c : Provider) :
  Sync.__init__ environ kwargs = Ok (Sync.Build_ManagedIdentityCredential (Some c))
  \/ Aio.__init__ environ kwargs = Ok (Aio.Build_ManagedIdentityCredential (Some c)) ->
  forwards_options kwargs c.
Proof.
  open_init.
  destruct (truthy (os_environ_get environ IDENTITY_ENDPOINT)).
  { split_guards; split_construct; intros [H|H]; try discriminate H;
      injection H as <-; apply forwards_plain. }
  destruct (truthy (os_environ_get environ MSI_ENDPOINT)).
  { split_guards; split_construct; intros [H|H]; try discriminate H;
      injection H as <-; apply forwards_plain. }
  destruct (_ && _);
    [|split_construct; intros [H|H]; try discriminate H; injection H as <-;
      apply forwards_plain].
  destruct (negb _); [intros [H|H]; discriminate H|].
  destruct (os_environ_getitem environ AZURE_TENANT_ID) as [tenant|];
    [|intros [H|H]; discriminate H].
  destruct (os_environ_getitem environ AZURE_FEDERATED_TOKEN_FILE) as [file|];
    [|intros [H|H]; discriminate H].
  cbn [bind].
  unfold Sync.WorkloadIdentityCredential, Aio.WorkloadIdentityCredential,
    instantiate.
  destruct (forallb _ _); [|intros [H|H]; discriminate H].
  split_construct; intros [H|H]; try discriminate H;
    injection H as <-; apply forwards_workload.
Qed.

(** ** Where the two variants part *)

Lemma bare_endpoint_guard environ :
  bare_endpoint environ <->
  truthy (os_environ_get environ IDENTITY_ENDPOINT) = true
  /\ truthy (os_environ_get environ IDENTITY_HEADER) = false
  /\ truthy (os_environ_get environ IMDS_ENDPOINT) = false.
Proof.
  unfold bare_endpoint. rewrite <- !truthy_get_absent, <- truthy_get_present.
  reflexivity.
Qed.

Lemma sync_resolve_none environ (exclude : bool) :
  Sync.resolve environ exclude = None <-> bare_endpoint environ.
Proof.
  rewrite bare_endpoint_guard. unfold Sync.resolve.
  split_guards; split; try discriminate; try (intros (? & ? & ?); discriminate);
    auto.
Qed.

(** X7.  A synchronous credential comes out of its constructor without
    delegate exactly when IDENTITY_ENDPOINT is present and IDENTITY_HEADER
    and IMDS_ENDPOINT are not; these are the environments, and the only
    ones, in which its [get_token] raises the CredentialUnavailableError of
    its own. *)
Theorem sync_without_delegate_iff_bare_endpoint environ kwargs
    (self : Sync.ManagedIdentityCredential) :
  Sync.__init__ environ kwargs = Ok self ->
  (Sync._credential self = None <-> bare_endpoint environ)
  /\ ((forall scopes claims tenant_id kw,
         Sync.get_token self scopes claims tenant_id kw
         = Throw (CredentialUnavailableError Sync.unavailable_message))
      <-> bare_endpoint environ).
Proof.
  intros Hinit. assert (Hlink := sync_init_resolve environ kwargs).
  rewrite Hinit in Hlink.
  rewrite <- (sync_resolve_none environ (exclude_flag kwargs)), <- Hlink.
  destruct self as [[c|]]; cbn [Sync._credential held_class fmap option_fmap option_map];
    unfold Sync.get_token; cbn [Sync._credential].
  - split; [split; discriminate|]. split; [|discriminate].
    intros Hthrow. specialize (Hthrow [] None None ∅). discriminate Hthrow.
  - split; [split; reflexivity|]. split; reflexivity.
Qed.

(** Outside the branch of an identity endpoint without header and without
    IMDS endpoint, the two constructors go the same way: they construct a
    delegate of the same class from the same arguments, or raise the same
    exception before any delegate is constructed. *)
Lemma sync_aio_agree environ kwargs :
  ~ bare_endpoint environ ->
  Sync.resolve environ (exclude_flag kwargs) = Aio.resolve environ (exclude_flag kwargs)
  /\ ((exists cls args,
         Sync.__init__ environ kwargs = Sync.holding (construct Synchronous cls args)
         /\ Aio.__init__ environ kwargs
            = Aio.holding (construct Asynchronous cls args))
      \/ (exists e,
            Sync.__init__ environ kwargs = Raise e
            /\ Aio.__init__ environ kwargs = Raise e)).
Proof.
  intros Hcovered.
  assert (Hsame : Sync.resolve environ (exclude_flag kwargs)
                  = Aio.resolve environ (exclude_flag kwargs)).
  { rewrite bare_endpoint_guard in Hcovered. unfold Sync.resolve, Aio.resolve.
    destruct (truthy (os_environ_get environ IDENTITY_ENDPOINT)); [|reflexivity].
    destruct (truthy (os_environ_get environ IDENTITY_HEADER)); [reflexivity|].
    destruct (truthy (os_environ_get environ IMDS_ENDPOINT)); [reflexivity|].
    destruct Hcovered. auto. }
  split; [exact Hsame|].
  destruct (init_elsewhere environ kwargs) as [Hsync Haio].
  rewrite Hsame in Hsync.
  destruct (Aio.resolve environ (exclude_flag kwargs)) as [cls|] eqn:Hcls;
    [|destruct Haio].
  destruct cls; try (left; eexists _, _; split; [exact Hsync | exact Haio]).
  destruct (resolve_workload_inv environ _ (or_intror Hcls))
    as (Hendpoint & Hmsi & Hall & Hflag).
  destruct (workload_outcome environ kwargs Hendpoint Hmsi Hall Hflag)
    as [Hnormal Hnormal'].
  cbv zeta in Hnormal, Hnormal'. rewrite Hnormal, Hnormal'.
  destruct (truthy (py_or _ _)); [|right; eexists; split; reflexivity].
  destruct (environ !! AZURE_TENANT_ID); [|right; eexists; split; reflexivity].
  destruct (environ !! AZURE_FEDERATED_TOKEN_FILE);
    [|right; eexists; split; reflexivity].
  destruct (_ && _); [|right; eexists; split; reflexivity].
  left. eexists _, _. split; reflexivity.
Qed.

(** X8.  Unless IDENTITY_ENDPOINT is present with neither IDENTITY_HEADER
    nor IMDS_ENDPOINT, the two constructors go the same way: they construct
    a delegate of the same class from the same arguments or raise the same
    exception of their own.  So, when the classes of the two packages raise
    alike, the constructors have the same outcome, the same delegate or the
    same exception, and with it the same [get_token].  In that one case
    the synchronous constructor holds no delegate and the asynchronous one
    constructs a CloudShellCredential from the caller's options. *)
Theorem variants_agree_unless_bare_endpoint environ kwargs :
  (~ bare_endpoint environ ->
     (exists cls args,
        Sync.__init__ environ kwargs = Sync.holding (construct Synchronous cls args)
        /\ Aio.__init__ environ kwargs
           = Aio.holding (construct Asynchronous cls args))
     \/ (exists e,
           Sync.__init__ environ kwargs = Raise e
           /\ Aio.__init__ environ kwargs = Raise e))
  /\ (~ bare_endpoint environ ->
      (forall cls args,
         init_raises Synchronous cls args = init_raises Asynchronous cls args) ->
      match Sync.__init__ environ kwargs, Aio.__init__ environ kwargs with
      | Ok s, Ok a =>
          Sync._credential s = Aio._credential a
          /\ forall scopes claims tenant_id kw,
               Sync.get_token s scopes claims tenant_id kw
               = Aio.get_token a scopes claims tenant_id kw
      | Raise e, Raise e' => e = e'
      | _, _ => False
      end)
  /\ (bare_endpoint environ ->
      Sync.__init__ environ kwargs = Ok (Sync.Build_ManagedIdentityCredential None)
      /\ Aio.__init__ environ kwargs
         = Aio.holding (construct Asynchronous CloudShell (delegate_kwargs kwargs))).
Proof.
  split; [|split].
  - intros Hcovered. apply (sync_aio_agree environ kwargs Hcovered).
  - intros Hcovered Halike.
    destruct (sync_aio_agree environ kwargs Hcovered)
      as [_ [(cls & args & -> & ->)|(e & -> & ->)]]; [|reflexivity].
    unfold Sync.holding, Aio.holding, construct. rewrite <- Halike.
    destruct (init_raises Synchronous cls args); cbn [bind]; [reflexivity|].
    split; reflexivity.
  - intros (Hendpoint & Hheader & Himds)%bare_endpoint_guard.
    open_init. rewrite Hendpoint, Hheader, Himds. split; reflexivity.
Qed.

(** ** Precedence *)


(** X10.  The exclusion flag changes nothing unless workload identity
    would be selected: when an endpoint variable is present or a variable of
    WORKLOAD_IDENTITY_VARS is missing, passing any value for the flag
    gives the credential that passing none gives. *)
Theorem exclusion_flag_is_inert_elsewhere environ kwargs (flag : PyVal) :
  present environ IDENTITY_ENDPOINT
  \/ present environ MSI_ENDPOINT
  \/ (exists var, In var WORKLOAD_IDENTITY_VARS /\ ~ present environ var) ->
  Sync.__init__ environ (<["_exclude_workload_identity_credential" := flag]> kwargs)
  = Sync.__init__ environ (delete "_exclude_workload_identity_credential" kwargs)
  /\ Aio.__init__ environ (<["_exclude_workload_identity_credential" := flag]> kwargs)
     = Aio.__init__ environ (delete "_exclude_workload_identity_credential" kwargs).
Proof.
  intros Helsewhere. open_init.
  rewrite delete_insert_eq, delete_delete_eq, lookup_insert_eq, lookup_delete_eq.
  destruct (truthy (os_environ_get environ IDENTITY_ENDPOINT)) eqn:Hendpoint;
    [split; reflexivity|].
  destruct (truthy (os_environ_get environ MSI_ENDPOINT)) eqn:Hmsi;
    [split; reflexivity|].
  destruct Helsewhere as [H|[H|(var & Hin & Habsent)]].
  - apply truthy_get_present in H. congruence.
  - apply truthy_get_present in H. congruence.
  - rewrite !(workload_guard_missing environ _ var Hin Habsent).
    split; reflexivity.
Qed.

(** ** Entering the scope *)

(** X11.  Entering the scope of a credential hands back that credential,
    not its delegate.  Without delegate nothing is called and the world is
    left as it was; with one, the delegate's [__enter__] (or [__aenter__])
    is called once, the world is the one that call leaves, and if the call
    raises the same exception comes out. *)
Theorem enter_returns_the_credential {W : Type} (h : Delegates W)
    (s : Sync.ManagedIdentityCredential) (a : Aio.ManagedIdentityCredential) (w : W) :
  (forall r w', run h (Sync.__enter__ s) w = (Ok r, w') -> r = s)
  /\ (forall r w', run h (Aio.__aenter__ a) w = (Ok r, w') -> r = a)
  /\ (Sync._credential s = None ->
      Sync.__enter__ s = Return s /\ run h (Sync.__enter__ s) w = (Ok s, w))
  /\ (Aio._credential a = None ->
      Aio.__aenter__ a = Return a /\ run h (Aio.__aenter__ a) w = (Ok a, w))
  /\ (forall c, Sync._credential s = Some c ->
      (run h (Sync.__enter__ s) w).2 = (h unit (provider_enter c) w).2
      /\ (forall e, (h unit (provider_enter c) w).1 = Raise e <->
                    (run h (Sync.__enter__ s) w).1 = Raise e))
  /\ (forall c, Aio._credential a = Some c ->
      (run h (Aio.__aenter__ a) w).2 = (h unit (provider_enter c) w).2
      /\ (forall e, (h unit (provider_enter c) w).1 = Raise e <->
                    (run h (Aio.__aenter__ a) w).1 = Raise e)).
Proof.
  destruct s as [[c|]], a as [[c'|]];
    unfold Sync.__enter__, Aio.__aenter__;
    cbn [Sync._credential Aio._credential run].
  all: repeat apply conj; try discriminate; try (intros _; split; reflexivity).
  all: try (intros r w' [= <- _]; reflexivity).
  all: try (intros r w'; destruct (h unit (provider_enter _) w) as [[[]|e] w0];
            intros [= <- _]; reflexivity).
  all: intros c0 [= <-]; destruct (h unit (provider_enter _) w) as [[[]|e] w0];
    cbn [fst snd]; (split; [reflexivity|]); intros e'; split; congruence.
Qed.

(** ** Reading the environment off the delegate *)

Ltac to_presence :=
  repeat match goal with
         | H : truthy (os_environ_get _ _) = true |- _ =>
             apply truthy_get_present in H
         | H : truthy (os_environ_get _ _) = false |- _ =>
             apply truthy_get_absent in H
         end.

Lemma resolve_table environ (exclude : bool) (cls : CredentialSourceKind) :
  Sync.resolve environ exclude = Some cls \/ Aio.resolve environ exclude = Some cls ->
  match cls with
  | ServiceFabric =>
      present environ IDENTITY_ENDPOINT /\ present environ IDENTITY_HEADER
      /\ present environ IDENTITY_SERVER_THUMBPRINT
  | AppService =>
      present environ IDENTITY_ENDPOINT /\ present environ IDENTITY_HEADER
      /\ ~ present environ IDENTITY_SERVER_THUMBPRINT
  | AzureArc =>
      present environ IDENTITY_ENDPOINT /\ ~ present environ IDENTITY_HEADER
      /\ present environ IMDS_ENDPOINT
  | AzureML =>
      ~ present environ IDENTITY_ENDPOINT /\ present environ MSI_ENDPOINT
      /\ present environ MSI_SECRET
  | CloudShell =>
      (~ present environ IDENTITY_ENDPOINT /\ present environ MSI_ENDPOINT
       /\ ~ present environ MSI_SECRET)
      \/ (bare_endpoint environ /\ Sync.resolve environ exclude = None)
  | WorkloadIdentity | Imds =>
      ~ present environ IDENTITY_ENDPOINT /\ ~ present environ MSI_ENDPOINT
      /\ py_all (map (os_environ_get environ) WORKLOAD_IDENTITY_VARS)
           && negb exclude
         = match cls with WorkloadIdentity => true | _ => false end
  end.
Proof.
  unfold Sync.resolve, Aio.resolve, bare_endpoint.
  destruct (truthy (os_environ_get environ IDENTITY_ENDPOINT)) eqn:Hendpoint.
  - destruct (truthy (os_environ_get environ IDENTITY_HEADER)) eqn:Hheader;
      [destruct (truthy (os_environ_get environ IDENTITY_SERVER_THUMBPRINT)) eqn:Hthumb
      |destruct (truthy (os_environ_get environ IMDS_ENDPOINT)) eqn:Himds];
      to_presence; intros [H|H]; try discriminate H; injection H as <-; auto.
  - destruct (truthy (os_environ_get environ MSI_ENDPOINT)) eqn:Hmsi;
      [destruct (truthy (os_environ_get environ MSI_SECRET)) eqn:Hsecret
      |destruct (_ && _) eqn:Hguard];
      to_presence; intros [H|H]; injection H as <-; auto.
Qed.

(** X12.  The class of the delegate tells which variables were present.
    A ServiceFabricCredential, AppServiceCredential or AzureArcCredential
    is held only with IDENTITY_ENDPOINT present; an AzureMLCredential only
    with MSI_ENDPOINT and MSI_SECRET and without IDENTITY_ENDPOINT; a
    CloudShellCredential only with MSI_ENDPOINT alone, or, in the
    asynchronous variant, with IDENTITY_ENDPOINT alone; a
    WorkloadIdentityCredential only when its guard holds; an ImdsCredential
    only when no endpoint variable is present and that guard fails. *)
Theorem delegate_class_tells_the_environment environ kwargs (c : Provider) :
  Sync.__init__ environ kwargs = Ok (Sync.Build_ManagedIdentityCredential (Some c))
  \/ Aio.__init__ environ kwargs = Ok (Aio.Build_ManagedIdentityCredential (Some c)) ->
  match provider_class c with
  | ServiceFabric =>
      present environ IDENTITY_ENDPOINT /\ present environ IDENTITY_HEADER
      /\ present environ IDENTITY_SERVER_THUMBPRINT
  | AppService =>
      present environ IDENTITY_ENDPOINT /\ present environ IDENTITY_HEADER
      /\ ~ present environ IDENTITY_SERVER_THUMBPRINT
  | AzureArc =>
      present environ IDENTITY_ENDPOINT /\ ~ present environ IDENTITY_HEADER
      /\ present environ IMDS_ENDPOINT
  | AzureML =>
      ~ present environ IDENTITY_ENDPOINT /\ present environ MSI_ENDPOINT
      /\ present environ MSI_SECRET
  | CloudShell =>
      (~ present environ IDENTITY_ENDPOINT /\ present environ MSI_ENDPOINT
       /\ ~ present environ MSI_SECRET)
      \/ (bare_endpoint environ
          /\ Sync.__init__ environ kwargs
             = Ok (Sync.Build_ManagedIdentityCredential None))
  | WorkloadIdentity => workload_identity_selected environ kwargs
  | Imds =>
      ~ present environ IDENTITY_ENDPOINT /\ ~ present environ MSI_ENDPOINT
      /\ ~ workload_identity_selected environ kwargs
  end.
Proof.
  intros Hbuilt.
  assert (Hclass : Sync.resolve environ (exclude_flag kwargs) = Some (provider_class c)
                   \/ Aio.resolve environ (exclude_flag kwargs)
                      = Some (provider_class c)).
  { destruct Hbuilt as [Hinit|Hinit].
    - left. assert (Hlink := sync_init_resolve environ kwargs).
      rewrite Hinit in Hlink. symmetry. exact Hlink.
    - right. assert (Hlink := aio_init_resolve environ kwargs).
      rewrite Hinit in Hlink. symmetry. exact Hlink. }
  apply resolve_table in Hclass.
  destruct (provider_class c); try exact Hclass.
  - destruct Hclass as [Hmsi|[Hbare _]]; [left; exact Hmsi | right].
    split; [exact Hbare|].
    apply bare_endpoint_guard in Hbare as (Hendpoint & Hheader & Himds).
    open_init. rewrite Hendpoint, Hheader, Himds. reflexivity.
  - destruct Hclass as (Hendpoint & Hmsi & Hguard).
    apply selected_guard. apply truthy_get_absent in Hendpoint, Hmsi.
    apply andb_true_iff in Hguard as [Hall Hflag].
    apply negb_true_iff in Hflag. auto.
  - destruct Hclass as (Hendpoint & Hmsi & Hguard).
    split; [exact Hendpoint|]. split; [exact Hmsi|].
    intros (_ & _ & Hall & Hflag)%selected_guard.
    rewrite Hall, Hflag in Hguard. discriminate Hguard.
Qed.

End Further.

(** ** The further theorems at the sample environments *)


Ltac workload_is_selected :=
  split; [is_absent | split; [is_absent | split; [|vm_compute; reflexivity]]];
  intros var [<-|[<-|[<-|[]]]]; is_present.

Lemma identity_endpoint_with_imds_selects_arc_witness :
  Sync.__init__ (names := azure_names) (classes := sample_classes)
    azure_arc_environ with_client_id
  = Ok (Sync.Build_ManagedIdentityCredential
          (Some (Build_Provider AzureArc (delegate_kwargs with_client_id))))
  /\ Aio.__init__ (names := azure_names) (classes := sample_classes)
       azure_arc_environ with_client_id
     = Ok (Aio.Build_ManagedIdentityCredential
             (Some (Build_Provider AzureArc (delegate_kwargs with_client_id)))).
Proof.
  destruct (identity_endpoint_with_imds_selects_arc
              (names := azure_names) (classes := sample_classes)
              azure_arc_environ with_client_id false)
    as (_ & _ & Hsync & Haio); [is_present | is_absent | is_present |].
  rewrite Hsync, Haio. vm_compute. split; reflexivity.
Defined.

Lemma own_exceptions_only_in_workload_branch_witness :
  (raised_by_delegate (classes := sample_classes) Synchronous
     (Sync.resolve (names := azure_names) cloud_shell_environ
        (exclude_flag with_base_headers))
     TypeError
   \/ (workload_identity_selected (names := azure_names)
         cloud_shell_environ with_base_headers
       /\ (TypeError = ValueError missing_client_id_message
           \/ TypeError = KeyError "AZURE_TENANT_ID"
           \/ TypeError = KeyError "AZURE_FEDERATED_TOKEN_FILE"
           \/ TypeError = TypeError)))
  /\ Sync.resolve (names := azure_names) cloud_shell_environ
       (exclude_flag with_base_headers)
     = Some CloudShell.
Proof.
  split; [|vm_compute; reflexivity].
  apply (own_exceptions_only_in_workload_branch
           (names := azure_names) (classes := sample_classes)
           cloud_shell_environ with_base_headers TypeError).
  vm_compute. reflexivity.
Defined.

Lemma constructor_failure_causes_witness :
  raised_by_delegate (classes := sample_classes) Asynchronous
    (Aio.resolve (names := azure_names) workload_environ_without_client
       (exclude_flag ∅))
    (ValueError missing_client_id_message)
  \/ (ValueError missing_client_id_message = ValueError missing_client_id_message
      /\ no_client_id (names := azure_names) workload_environ_without_client ∅)
  \/ (ValueError missing_client_id_message = TypeError
      /\ ~ no_client_id (names := azure_names) workload_environ_without_client ∅
      /\ (is_Some ((∅ : gmap string PyVal) !! "tenant_id")
          \/ is_Some ((∅ : gmap string PyVal) !! "file"))).
Proof.
  apply (constructor_failure_causes
           (names := azure_names) (classes := sample_classes)
           workload_environ_without_client ∅
           (ValueError missing_client_id_message)).
  - right. left. reflexivity.
  - right. right. left. reflexivity.
  - vm_compute. reflexivity.
Defined.

Lemma repeated_keyword_is_rejected_witness :
  Sync.__init__ (names := azure_names) (classes := sample_classes)
    workload_environ with_tenant_id
  = Raise TypeError
  /\ Aio.__init__ (names := azure_names) (classes := sample_classes)
       workload_environ with_tenant_id
     = Raise TypeError.
Proof.
  apply (repeated_keyword_is_rejected
           (names := azure_names) (classes := sample_classes)
           workload_environ with_tenant_id).
  - workload_is_selected.
  - intros [Hoption _]. specialize (Hoption (PyStr "override")).
    vm_compute in Hoption. specialize (Hoption eq_refl). discriminate Hoption.
  - exists "tenant". vm_compute. reflexivity.
  - exists "/var/run/secrets/token". vm_compute. reflexivity.
  - left. exists (PyStr "other"). vm_compute. reflexivity.
Defined.

Lemma client_id_option_overrides_environment_witness :
  exists c : Provider,
    Sync.__init__ (names := azure_names) (classes := sample_classes)
      workload_environ_without_client with_client_id
    = Ok (Sync.Build_ManagedIdentityCredential (Some c))
    /\ init_kwargs c !! "client_id" = Some (PyStr "override").
Proof.
  destruct (client_id_option_overrides_environment
              (names := azure_names) (classes := sample_classes)
              workload_environ_without_client with_client_id
              (PyStr "override") "tenant" "/var/run/secrets/token")
    as (args & Hsync & _ & Hclient & _).
  - workload_is_selected.
  - vm_compute. reflexivity.
  - reflexivity.
  - vm_compute. reflexivity.
  - vm_compute. reflexivity.
  - vm_compute. reflexivity.
  - vm_compute. reflexivity.
  - destruct (Sync.__init__ (names := azure_names) (classes := sample_classes)
                workload_environ_without_client with_client_id)
      as [[[c|]]|e] eqn:Hrun; try (vm_compute in Hrun; discriminate Hrun).
    exists c. split; [reflexivity|].
    symmetry in Hsync. unfold Sync.holding in Hsync.
    destruct (construct Synchronous WorkloadIdentity args) as [c'|e] eqn:Hbuilt;
      [|discriminate Hsync].
    injection Hsync as ->. apply construct_inv in Hbuilt as [_ ->].
    exact Hclient.
Defined.

Lemma options_reach_the_delegate_witness :
  forwards_options with_client_id
    (Build_Provider AzureArc (delegate_kwargs with_client_id)).
Proof.
  apply (options_reach_the_delegate
           (names := azure_names) (classes := sample_classes)
           azure_arc_environ with_client_id).
  left. vm_compute. reflexivity.
Defined.

Lemma sync_without_delegate_iff_bare_endpoint_witness :
  (Sync._credential (Sync.Build_ManagedIdentityCredential None) = None
   <-> bare_endpoint (names := azure_names) bare_endpoint_environ)
  /\ ~ bare_endpoint (names := azure_names) azure_arc_environ.
Proof.
  split.
  - apply (sync_without_delegate_iff_bare_endpoint
             (names := azure_names) (classes := sample_classes)
             bare_endpoint_environ ∅ (Sync.Build_ManagedIdentityCredential None)).
    vm_compute. reflexivity.
  - intros Hbare.
    destruct (sync_without_delegate_iff_bare_endpoint
                (names := azure_names) (classes := sample_classes)
                azure_arc_environ ∅
                (Sync.Build_ManagedIdentityCredential
                   (Some (Build_Provider AzureArc ∅)))) as [[_ Hnone] _].
    + vm_compute. reflexivity.
    + discriminate (Hnone Hbare).
Defined.

Lemma variants_agree_unless_bare_endpoint_witness :
  match Sync.__init__ (names := azure_names) (classes := sample_classes)
          workload_environ_without_client ∅,
        Aio.__init__ (names := azure_names) (classes := sample_classes)
          workload_environ_without_client ∅ with
  | Ok s, Ok a =>
      Sync._credential s = Aio._credential a
      /\ forall scopes claims tenant_id kw,
           Sync.get_token s scopes claims tenant_id kw
           = Aio.get_token a scopes claims tenant_id kw
  | Raise e, Raise e' => e = e'
  | _, _ => False
  end
  /\ Aio.__init__ (names := azure_names) (classes := sample_classes)
       bare_endpoint_environ with_client_id
     = Ok (Aio.Build_ManagedIdentityCredential
             (Some (Build_Provider CloudShell (delegate_kwargs with_client_id)))).
Proof.
  split.
  - destruct (variants_agree_unless_bare_endpoint
                (names := azure_names) (classes := sample_classes)
                workload_environ_without_client ∅) as (_ & Halike & _).
    apply Halike; [|intros cls args; reflexivity].
    intros (Hendpoint & _). revert Hendpoint. is_absent.
  - destruct (variants_agree_unless_bare_endpoint
                (names := azure_names) (classes := sample_classes)
                bare_endpoint_environ with_client_id) as (_ & _ & Hbare).
    destruct Hbare as [_ Haio]; [split; [is_present | split; is_absent]|].
    rewrite Haio. vm_compute. reflexivity.
Defined.


Lemma exclusion_flag_is_inert_elsewhere_witness :
  Sync.__init__ (names := azure_names) (classes := sample_classes)
    ml_and_workload_environ
    (<["_exclude_workload_identity_credential" := PyBool true]> with_client_id)
  = Sync.__init__ (names := azure_names) (classes := sample_classes)
      ml_and_workload_environ
      (delete "_exclude_workload_identity_credential" with_client_id)
  /\ Aio.__init__ (names := azure_names) (classes := sample_classes)
       ml_and_workload_environ
       (<["_exclude_workload_identity_credential" := PyBool true]> with_client_id)
     = Aio.__init__ (names := azure_names) (classes := sample_classes)
         ml_and_workload_environ
         (delete "_exclude_workload_identity_credential" with_client_id).
Proof.
  apply (exclusion_flag_is_inert_elsewhere
           (names := azure_names) (classes := sample_classes)
           ml_and_workload_environ with_client_id (PyBool true)).
  right. left. is_present.
Defined.

Lemma enter_returns_the_credential_witness :
  let s := Sync.Build_ManagedIdentityCredential (Some (Build_Provider Imds ∅)) in
  (run sample_delegates (Sync.__enter__ s) []).2
  = (sample_delegates unit (provider_enter (Build_Provider Imds ∅)) []).2.
Proof.
  intros s.
  destruct (enter_returns_the_credential sample_delegates s
              (Aio.Build_ManagedIdentityCredential None) [])
    as (_ & _ & _ & _ & Hsync & _).
  apply (Hsync (Build_Provider Imds ∅) eq_refl).
Defined.

Lemma delegate_class_tells_the_environment_witness :
  ~ present azure_ml_environ "IDENTITY_ENDPOINT"
  /\ present azure_ml_environ "MSI_ENDPOINT"
  /\ present azure_ml_environ "MSI_SECRET".
Proof.
  apply (delegate_class_tells_the_environment
           (names := azure_names) (classes := sample_classes)
           azure_ml_environ ∅ (Build_Provider AzureML ∅)).
  left. vm_compute. reflexivity.
Defined.
